(** * Dragon Ball catalog viewer: the data-access service and the page controllers

    A shallow embedding of [src/lib/api.js], [src/lib/mockData.js], the list
    page [src/routes/+page.svelte] and the character detail page, followed by
    the properties of the orchestration layer.

    Modelling conventions.
    - JavaScript numbers that the code uses as page numbers, page sizes,
      identifiers and counts are integers of [Z].
    - Strings are texts in UTF-8, one [ascii] per byte; a lone surrogate has
      no encoding and is not represented.  [includes] compares bytes, which
      on encoded texts is the comparison of code units.
    - [String.prototype.toLowerCase] and the conversion of a number to a
      string are functions of the host.  They are the fields of an [Engine],
      together with what ECMAScript fixes for ASCII text and for integers
      below 10^21; every property is proved for every engine.
      [example_engine] is the engine that examples are computed with.
    - An [async] function is run to completion: [await] is sequencing.  The
      interleaving of several operations in flight is outside the model.
    - The remote API is an oracle ([network]) that says, for each request,
      whether [fetch] rejects, which status the response has, and what
      [response.json()] yields.  Every request issued is appended to a log.
    - [console.error] has no effect on any value and is left out. *)

From Stdlib Require Import ZArith List String Ascii Bool Lia DecimalString DecimalPos.
Import ListNotations.

Open Scope Z_scope.

(** ** JavaScript built-ins used by the sources *)

Module JS.

(** An [Error] object; only [message] is ever read. *)
Record Error : Type := mkError { message : string }.

(** Completion of an evaluation: a value, or a raised exception. *)
Inductive result (A : Type) : Type :=
| Return (a : A)
| Throw (e : Error).
Arguments Return {A} a.
Arguments Throw {A} e.

(** A string used as a condition: the empty string is falsy. *)
Definition truthy (s : string) : bool :=
  match s with
  | EmptyString => false
  | String _ _ => true
  end.

Definition lower_char (c : ascii) : ascii :=
  let n := N_of_ascii c in
  if ((65 <=? n) && (n <=? 90))%N then ascii_of_N (n + 32) else c.

(** [String.prototype.toLowerCase] on ASCII text. *)
Fixpoint ascii_toLowerCase (s : string) : string :=
  match s with
  | EmptyString => EmptyString
  | String c s' => String (lower_char c) (ascii_toLowerCase s')
  end.

(** The text has no character outside ASCII. *)
Fixpoint ascii_only (s : string) : bool :=
  match s with
  | EmptyString => true
  | String c s' => (N_of_ascii c <? 128)%N && ascii_only s'
  end.

(** [s.includes(sub)]: [sub] occurs in [s] as a contiguous substring. *)
Fixpoint includes (s sub : string) : bool :=
  String.prefix sub s
  || match s with
     | EmptyString => false
     | String _ s' => includes s' sub
     end.

(** Template-literal conversion of an integer. *)
Definition string_of_Z (n : Z) : string :=
  NilZero.string_of_int (Z.to_int n).

(** [Array.prototype.slice(start, end)]: a negative index counts from the
    end, and both indices are clamped to the array. *)
Definition slice_index (len k : Z) : Z :=
  if k <? 0 then Z.max (len + k) 0 else Z.min k len.

Definition slice {A : Type} (l : list A) (start end_ : Z) : list A :=
  let len := Z.of_nat (List.length l) in
  let k := slice_index len start in
  let final := slice_index len end_ in
  firstn (Z.to_nat (final - k)) (skipn (Z.to_nat k) l).

(** [Math.ceil(a / b)] on integers.  For [b = 0] JavaScript yields
    [Infinity] (or [NaN]), which [Z] does not have; no page size of the
    callers is zero and no property below reads the value there. *)
Definition ceil_div (a b : Z) : Z := - ((- a) / b).

(** The host functions that this development does not define: lower-casing
    beyond ASCII follows the Unicode tables, and a number of 10^21 or more is
    written with an exponent.  The laws are those of ECMAScript:
    [toLowerCase] folds A-Z on ASCII text and never empties a string; an
    integer below 10^21 in absolute value is written in decimal digits. *)
Class Engine : Type := mkEngine {
  toLowerCase : string -> string;
  number_to_string : Z -> string;
  toLowerCase_ascii :
    forall s, ascii_only s = true -> toLowerCase s = ascii_toLowerCase s;
  toLowerCase_truthy : forall s, truthy (toLowerCase s) = truthy s;
  number_to_string_decimal :
    forall n, Z.abs n < 10 ^ 21 -> number_to_string n = string_of_Z n
}.

(** *** An engine to compute examples with

    Lower-casing by the simple mappings of the Latin, Greek and Cyrillic
    letters of up to three bytes (without the rule of the final sigma), and
    the exponent notation of an integer of 10^21 or more, with up to 17
    digits.  The properties do not rest on it. *)

(** The lower case of a code point; U+0130 gives two code points. *)
Definition lower_code_point (n : N) : list N :=
  (if (65 <=? n) && (n <=? 90) then [n + 32]
   else if (192 <=? n) && (n <=? 222) && negb (n =? 215) then [n + 32]
   else if n =? 304 then [105; 775]
   else if (((256 <=? n) && (n <=? 311)) || ((330 <=? n) && (n <=? 375)))
           && N.even n then [n + 1]
   else if (((313 <=? n) && (n <=? 328)) || ((377 <=? n) && (n <=? 382)))
           && N.odd n then [n + 1]
   else if n =? 376 then [255]
   else if (913 <=? n) && (n <=? 939) && negb (n =? 930) then [n + 32]
   else if (1040 <=? n) && (n <=? 1071) then [n + 32]
   else if (1024 <=? n) && (n <=? 1039) then [n + 80]
   else if n =? 8486 then [969]
   else if n =? 8490 then [107]
   else if n =? 8491 then [229]
   else [n])%N.

(** A code point below 2^16 in UTF-8. *)
Definition encode_code_point (n : N) : string :=
  (if n <? 128 then String (ascii_of_N n) EmptyString
   else if n <? 2048 then
     String (ascii_of_N (192 + n / 64))
       (String (ascii_of_N (128 + n mod 64)) EmptyString)
   else
     String (ascii_of_N (224 + n / 4096))
       (String (ascii_of_N (128 + (n / 64) mod 64))
          (String (ascii_of_N (128 + n mod 64)) EmptyString)))%N.

Definition lower_encoded (n : N) : string :=
  String.concat "" (map encode_code_point (lower_code_point n)).

Definition is_continuation (c : ascii) : bool :=
  ((128 <=? N_of_ascii c) && (N_of_ascii c <=? 191))%N.

Fixpoint example_toLowerCase (s : string) : string :=
  match s with
  | EmptyString => EmptyString
  | String c1 s1 =>
      let n1 := N_of_ascii c1 in
      if (n1 <? 128)%N then String (lower_char c1) (example_toLowerCase s1)
      else
        match s1 with
        | String c2 s2 =>
            let n2 := N_of_ascii c2 in
            if ((194 <=? n1) && (n1 <=? 223))%N && is_continuation c2 then
              (lower_encoded ((n1 - 192) * 64 + (n2 - 128))
               ++ example_toLowerCase s2)%string
            else
              match s2 with
              | String c3 s3 =>
                  let n3 := N_of_ascii c3 in
                  if ((224 <=? n1) && (n1 <=? 239))%N
                     && is_continuation c2 && is_continuation c3 then
                    (lower_encoded ((n1 - 224) * 4096 + (n2 - 128) * 64 + (n3 - 128))
                     ++ example_toLowerCase s3)%string
                  else String c1 (example_toLowerCase s1)
              | EmptyString => String c1 (example_toLowerCase s1)
              end
        | EmptyString => String c1 EmptyString
        end
  end.

Fixpoint strip_trailing_zeros (digits : list ascii) : list ascii :=
  match digits with
  | [] => []
  | d :: rest =>
      match strip_trailing_zeros rest with
      | [] => if Ascii.eqb d "0" then [] else [d]
      | kept => d :: kept
      end
  end.

(** [1.1805916207174113e+21] for 2^70. *)
Definition exponent_notation (n : Z) : string :=
  let digits := list_ascii_of_string (string_of_Z (Z.abs n)) in
  let sign := if n <? 0 then "-"%string else ""%string in
  match digits with
  | [] => ""%string
  | d :: rest =>
      let fraction := strip_trailing_zeros (firstn 16 rest) in
      (sign ++ String d EmptyString
       ++ match fraction with
          | [] => ""
          | _ => String "." (string_of_list_ascii fraction)
          end
       ++ "e+" ++ string_of_Z (Z.of_nat (List.length rest)))%string
  end.

Definition example_number_to_string (n : Z) : string :=
  if Z.abs n <? 10 ^ 21 then string_of_Z n else exponent_notation n.

(** *** [parseInt] with no radix argument *)

(** The white space and line terminators of one byte: TAB, LF, VT, FF, CR
    and the space. *)
Definition is_whitespace (c : ascii) : bool :=
  let n := N_of_ascii c in
  (((9 <=? n) && (n <=? 13)) || (n =? 32))%N.

(** The first byte of the white space that takes more bytes. *)
Definition is_whitespace_lead (c : ascii) : bool :=
  let n := N_of_ascii c in
  ((n =? 194) || (n =? 225) || (n =? 226) || (n =? 227) || (n =? 239))%N.

(** U+00A0, in two bytes. *)
Definition is_whitespace2 (c1 c2 : ascii) : bool :=
  ((N_of_ascii c1 =? 194) && (N_of_ascii c2 =? 160))%N.

(** In three bytes: U+1680; U+2000 to U+200A, U+2028, U+2029, U+202F;
    U+205F; U+3000; U+FEFF. *)
Definition is_whitespace3 (c1 c2 c3 : ascii) : bool :=
  let n1 := N_of_ascii c1 in
  let n2 := N_of_ascii c2 in
  let n3 := N_of_ascii c3 in
  (((n1 =? 225) && (n2 =? 154) && (n3 =? 128))
   || ((n1 =? 226) && (n2 =? 128)
       && (((128 <=? n3) && (n3 <=? 138)) || (n3 =? 168) || (n3 =? 169) || (n3 =? 175)))
   || ((n1 =? 226) && (n2 =? 129) && (n3 =? 159))
   || ((n1 =? 227) && (n2 =? 128) && (n3 =? 128))
   || ((n1 =? 239) && (n2 =? 187) && (n3 =? 191)))%N.

(** Skipping the leading white space ([StrWhiteSpaceChar]). *)
Fixpoint trim_start (s : string) : string :=
  match s with
  | String c1 s1 =>
      if is_whitespace c1 then trim_start s1
      else if is_whitespace_lead c1 then
        match s1 with
        | String c2 s2 =>
            if is_whitespace2 c1 c2 then trim_start s2
            else
              match s2 with
              | String c3 s3 =>
                  if is_whitespace3 c1 c2 c3 then trim_start s3 else s
              | EmptyString => s
              end
        | EmptyString => s
        end
      else s
  | EmptyString => EmptyString
  end.

Definition digit_value (radix : Z) (c : ascii) : option Z :=
  let n := Z.of_N (N_of_ascii c) in
  let v := if (48 <=? n) && (n <=? 57) then n - 48
           else if (97 <=? n) && (n <=? 122) then n - 87
           else if (65 <=? n) && (n <=? 90) then n - 55
           else radix in
  if v <? radix then Some v else None.

(** The value of the longest prefix of digits, [None] when it is empty. *)
Fixpoint digits (radix : Z) (s : string) (acc : option Z) : option Z :=
  match s with
  | EmptyString => acc
  | String c s' =>
      match digit_value radix c with
      | Some d =>
          digits radix s' (Some (match acc with
                                 | Some a => a * radix + d
                                 | None => d
                                 end))
      | None => acc
      end
  end.

Definition strip_sign (s : string) : Z * string :=
  match s with
  | String "-" s' => (-1, s')
  | String "+" s' => (1, s')
  | _ => (1, s)
  end.

Definition strip_hex_prefix (s : string) : Z * string :=
  match s with
  | String "0" (String "x" s') => (16, s')
  | String "0" (String "X" s') => (16, s')
  | _ => (10, s)
  end.

(** [parseInt(s)]; [None] is [NaN].  The result is the exact integer: above
    2^53 JavaScript rounds it, which no comparison with a small identifier
    can observe. *)
Definition parseInt_string (s : string) : option Z :=
  let (sign, s1) := strip_sign (trim_start s) in
  let (radix, s2) := strip_hex_prefix s1 in
  match digits radix s2 None with
  | Some n => Some (sign * n)
  | None => None
  end.

End JS.
Import JS.

(** ** Data model *)

Module Character.
Record t : Type := mk {
  id : Z;
  name : string;
  ki : string;
  maxKi : string;
  race : string;
  gender : string;
  description : string;
  image : string;
  affiliation : string
}.
End Character.

Module Planet.
Record t : Type := mk {
  id : Z;
  name : string;
  isDestroyed : bool;
  description : string
}.
End Planet.

(** The [meta] object of a paginated response. *)
Module Meta.
Record t : Type := mk {
  totalItems : Z;
  itemCount : Z;
  itemsPerPage : Z;
  totalPages : Z;
  currentPage : Z
}.
End Meta.

(** A parsed JSON document of a list endpoint, in the shapes the code tells
    apart: [null], on which reading a property raises; a bare array, which
    [data.items || data] provides for; an object with an [items] array and a
    [meta] that [data.meta?.totalPages || 1] allows to be missing.  Own
    properties of a document other than [items] and [meta] are not kept. *)
Inductive payload (A : Type) : Type :=
| PNull
| PArray (elems : list A)
| PObject (items : list A) (meta : option Meta.t).
Arguments PNull {A}.
Arguments PArray {A} elems.
Arguments PObject {A} items meta.

(** An identifier as a caller passes it: the route parameter is a string,
    the records carry numbers. *)
Inductive ident : Type :=
| IdStr (s : string)
| IdNum (n : Z).

(** [parseInt(id)]: a number is first converted to a string. *)
Definition parseInt {E : Engine} (i : ident) : option Z :=
  match i with
  | IdStr s => parseInt_string s
  | IdNum n => parseInt_string (number_to_string n)
  end.

(** ** The bundled fallback dataset ([mockData.js]) *)

Definition goku : Character.t :=
  Character.mk 1 "Goku" "60,000,000" "90,000,000,000,000,000,000" "Saiyan" "Male"
    "Goku is a Saiyan warrior originally sent to Earth as an infant to conquer the planet. However, an accident alters his memory, allowing him to grow up to become Earth's greatest defender."
    "https://dragonball-api.com/characters/goku_normal.webp" "Z Fighter".

Definition vegeta : Character.t :=
  Character.mk 2 "Vegeta" "54,000,000" "19,400,000,000,000,000,000" "Saiyan" "Male"
    "Prince of the fallen Saiyan race and one of the main characters of the Dragon Ball series. Originally a villain, he becomes a crucial ally and one of the strongest fighters."
    "https://dragonball-api.com/characters/vegeta_normal.webp" "Z Fighter".

Definition piccolo : Character.t :=
  Character.mk 3 "Piccolo" "2,000,000" "500,000,000" "Namekian" "Male"
    "Originally the reincarnation of the evil Piccolo Daimaō, he becomes one of Earth's greatest defenders and Gohan's mentor."
    "https://dragonball-api.com/characters/piccolo_normal.webp" "Z Fighter".

Definition gohan : Character.t :=
  Character.mk 4 "Gohan" "45,000,000" "40,000,000,000,000,000,000" "Half-Saiyan" "Male"
    "Goku's eldest son and one of the strongest fighters in the universe. Though preferring peace and studies, he has incredible hidden power."
    "https://dragonball-api.com/characters/gohan_normal.webp" "Z Fighter".

Definition frieza : Character.t :=
  Character.mk 5 "Frieza" "60,000,000" "1,700,000,000,000,000,000" "Frieza Race" "Male"
    "The emperor of the universe and one of the most powerful villains in Dragon Ball. Known for his cruelty and incredible transformations."
    "https://dragonball-api.com/characters/frieza_normal.webp" "Frieza Force".

Definition cell : Character.t :=
  Character.mk 6 "Cell" "900,000,000" "2,230,000,000,000,000,000" "Android" "Male"
    "A bio-android created by Dr. Gero, composed of cells from many fighters including Goku, Vegeta, Piccolo, and Frieza."
    "https://dragonball-api.com/characters/cell_normal.webp" "Red Ribbon Army".

Definition mockCharacters : list Character.t :=
  [goku; vegeta; piccolo; gohan; frieza; cell].

Definition mockPlanets : list Planet.t :=
  [ Planet.mk 1 "Earth" false
      "The home planet of humanity and the main setting for most of Dragon Ball's story.";
    Planet.mk 2 "Namek" true
      "The home planet of the Namekians, known for creating the Dragon Balls.";
    Planet.mk 3 "Vegeta" true
      "The former home planet of the Saiyan race, destroyed by Frieza." ].

(** ** The remote API and the effects of the code *)

(** A request sent with [fetch], by endpoint and parameters. *)
Inductive request : Type :=
| GET_characters (page limit : Z)
| GET_character (id : ident)
| GET_planets.

(** What [fetch] gives for a request: the promise rejects, or it resolves to
    a response with a status, whose [json()] in turn yields a document or
    raises. *)
Record response (A : Type) : Type := mkResponse {
  status : Z;
  json : result A
}.
Arguments mkResponse {A} status json.
Arguments status {A} r.
Arguments json {A} r.

Inductive fetched (A : Type) : Type :=
| Rejected (e : Error)
| Resolved (r : response A).
Arguments Rejected {A} e.
Arguments Resolved {A} r.

(** [response.ok]: the status is in the range 200 to 299. *)
Definition ok {A : Type} (r : response A) : bool :=
  (200 <=? status r) && (status r <=? 299).

Record network : Type := mkNetwork {
  characters_endpoint : Z -> Z -> fetched (payload Character.t);
  character_endpoint : ident -> fetched (option Character.t);
  planets_endpoint : fetched (payload Planet.t)
}.

(** The mutable world of a page: its reactive state [V] and the requests
    issued so far, oldest first. *)
Record world (V : Type) : Type := mkWorld {
  view : V;
  requests : list request
}.
Arguments mkWorld {V} view requests.
Arguments view {V} w.
Arguments requests {V} w.

(** Computations: they read the network, change the world, and complete
    with a value or an exception. *)
Definition M (V A : Type) : Type := network -> world V -> result A * world V.

Definition ret {V A : Type} (a : A) : M V A :=
  fun _ w => (Return a, w).

Definition throw {V A : Type} (e : Error) : M V A :=
  fun _ w => (Throw e, w).

Definition bind {V A B : Type} (c : M V A) (k : A -> M V B) : M V B :=
  fun net w =>
    match c net w with
    | (Return a, w') => k a net w'
    | (Throw e, w') => (Throw e, w')
    end.

(** [try { c } catch (error) { handler }] *)
Definition try_catch {V A : Type} (c : M V A) (handler : Error -> M V A) : M V A :=
  fun net w =>
    match c net w with
    | (Return a, w') => (Return a, w')
    | (Throw e, w') => handler e net w'
    end.

(** [try { c } finally { final }]: [final] runs on both completions and the
    completion of [c] stands unless [final] raises. *)
Definition try_finally {V A : Type} (c : M V A) (final : M V unit) : M V A :=
  fun net w =>
    let (r, w') := c net w in
    match final net w' with
    | (Return _, w'') => (r, w'')
    | (Throw e, w'') => (Throw e, w'')
    end.

(** Awaiting or using a completion that is already known. *)
Definition complete {V A : Type} (r : result A) : M V A :=
  fun _ w => (r, w).

Definition get {V : Type} : M V V :=
  fun _ w => (Return (view w), w).

Definition modify {V : Type} (f : V -> V) : M V unit :=
  fun _ w => (Return tt, mkWorld (f (view w)) (requests w)).

Declare Scope js_scope.
Delimit Scope js_scope with js.
Notation "x <- c ;; k" := (bind c (fun x => k))
  (at level 61, c at next level, right associativity) : js_scope.
Notation "c ;; k" := (bind c (fun _ => k))
  (at level 61, right associativity) : js_scope.
Open Scope js_scope.

Definition send {V A : Type} (rq : request) (answer : network -> fetched A)
  : M V (response A) :=
  fun net w =>
    let w' := mkWorld (view w) (requests w ++ [rq]) in
    match answer net with
    | Rejected e => (Throw e, w')
    | Resolved r => (Return r, w')
    end.

(** [fetch(`${API_BASE_URL}/characters?page=${page}&limit=${limit}`)] *)
Definition fetch_characters {V : Type} (page limit : Z)
  : M V (response (payload Character.t)) :=
  send (GET_characters page limit) (fun net => characters_endpoint net page limit).

(** [fetch(`${API_BASE_URL}/characters/${id}`)] *)
Definition fetch_character {V : Type} (id : ident)
  : M V (response (option Character.t)) :=
  send (GET_character id) (fun net => character_endpoint net id).

(** [fetch(`${API_BASE_URL}/planets`)] *)
Definition fetch_planets {V : Type} : M V (response (payload Planet.t)) :=
  send GET_planets planets_endpoint.

(** The body shared by the four [try] blocks: check the status, then parse. *)
Definition checked_json {V A : Type} (r : response A) : M V A :=
  if negb (ok r)
  then throw (mkError ("HTTP error! status: " ++ string_of_Z (status r)))
  else complete (json r).

(** [data.items || data]: reading [items] of [null] raises a [TypeError]
    (the message is V8's); an array has no [items] and stands for itself. *)
Definition items_or_self {A : Type} (data : payload A) : result (list A) :=
  match data with
  | PNull => Throw (mkError "Cannot read properties of null (reading 'items')")
  | PArray elems => Return elems
  | PObject items _ => Return items
  end.

(** [{ ...data, items: filteredItems }] *)
Definition with_items {A : Type} (data : payload A) (filteredItems : list A)
  : payload A :=
  match data with
  | PObject _ meta => PObject filteredItems meta
  | PArray _ => PObject filteredItems None
  | PNull => PObject filteredItems None
  end.

Definition len {A : Type} (l : list A) : Z := Z.of_nat (List.length l).

(** ** The data-access service ([api.js]) *)

Module DragonBallAPI.

Section Service.
Context {V : Type} {E : Engine}.

(** The envelope that [getAllCharacters] builds from the bundled dataset. *)
Definition mock_page (page limit : Z) : payload Character.t :=
  let startIndex := (page - 1) * limit in
  let endIndex := startIndex + limit in
  let paginatedMockData := slice mockCharacters startIndex endIndex in
  PObject paginatedMockData
    (Some {| Meta.totalItems := len mockCharacters;
             Meta.itemCount := len paginatedMockData;
             Meta.itemsPerPage := limit;
             Meta.totalPages := ceil_div (len mockCharacters) limit;
             Meta.currentPage := page |}).

Definition getAllCharacters (page limit : Z) : M V (payload Character.t) :=
  try_catch
    (response <- fetch_characters page limit ;;
     data <- checked_json response ;;
     ret data)
    (fun error => ret (mock_page page limit)).

(** [mockCharacters.find(char => char.id === parseInt(id))] *)
Definition find_mock (id : ident) : option Character.t :=
  find (fun char =>
          match parseInt id with
          | Some n => Character.id char =? n
          | None => false
          end)
       mockCharacters.

(** The document of the remote is a record or [null]; it is returned as it
    came. *)
Definition getCharacterById (id : ident) : M V (option Character.t) :=
  try_catch
    (response <- fetch_character id ;;
     data <- checked_json response ;;
     ret data)
    (fun error =>
       match find_mock id with
       | Some character => ret (Some character)
       | None => throw (mkError "Character not found")
       end).

(** The two filters of [searchCharacters]; an empty string skips its
    filter. *)
Definition name_matches (name : string) (character : Character.t) : bool :=
  includes (toLowerCase (Character.name character)) (toLowerCase name).

Definition race_matches (race : string) (character : Character.t) : bool :=
  includes (toLowerCase (Character.race character)) (toLowerCase race).

Definition apply_filters (name race : string) (filteredItems : list Character.t)
  : list Character.t :=
  let filteredItems :=
    if truthy name then filter (name_matches name) filteredItems
    else filteredItems in
  let filteredItems :=
    if truthy race then filter (race_matches race) filteredItems
    else filteredItems in
  filteredItems.

(** The envelope that [searchCharacters] builds from the bundled dataset. *)
Definition mock_search (name race : string) (page limit : Z)
  : payload Character.t :=
  let filteredItems := apply_filters name race mockCharacters in
  PObject filteredItems
    (Some {| Meta.totalItems := len filteredItems;
             Meta.itemCount := len filteredItems;
             Meta.itemsPerPage := limit;
             Meta.totalPages := 1;
             Meta.currentPage := page |}).

Definition searchCharacters (name race : string) (page limit : Z)
  : M V (payload Character.t) :=
  try_catch
    (response <- fetch_characters page limit ;;
     data <- checked_json response ;;
     filteredItems <- complete (items_or_self data) ;;
     ret (with_items data (apply_filters name race filteredItems)))
    (fun error => ret (mock_search name race page limit)).

Definition mock_planets : payload Planet.t :=
  PObject mockPlanets
    (Some {| Meta.totalItems := len mockPlanets;
             Meta.itemCount := len mockPlanets;
             Meta.itemsPerPage := 10;
             Meta.totalPages := 1;
             Meta.currentPage := 1 |}).

Definition getPlanets : M V (payload Planet.t) :=
  try_catch
    (response <- fetch_planets ;;
     data <- checked_json response ;;
     ret data)
    (fun error => ret mock_planets).

End Service.

End DragonBallAPI.

Definition handleApiError (error : Error) : string :=
  if includes (message error) "Failed to fetch"
  then "Network error. Please check your internet connection."
  else if includes (message error) "404"
  then "Character not found."
  else if includes (message error) "500"
  then "Server error. Please try again later."
  else "An unexpected error occurred. Please try again.".

(** ** The list page ([routes/+page.svelte]) *)

Module ListPage.

Record state : Type := mkState {
  characters : list Character.t;
  loading : bool;
  error : string;
  currentPage : Z;
  totalPages : Z;
  hasMore : bool
}.

(** The initial values of the [$state] declarations. *)
Definition initial : state := mkState [] false "" 1 1 true.

Definition set_characters (v : list Character.t) (s : state) : state :=
  mkState v (loading s) (error s) (currentPage s) (totalPages s) (hasMore s).
Definition set_loading (v : bool) (s : state) : state :=
  mkState (characters s) v (error s) (currentPage s) (totalPages s) (hasMore s).
Definition set_error (v : string) (s : state) : state :=
  mkState (characters s) (loading s) v (currentPage s) (totalPages s) (hasMore s).
Definition set_currentPage (v : Z) (s : state) : state :=
  mkState (characters s) (loading s) (error s) v (totalPages s) (hasMore s).
Definition set_totalPages (v : Z) (s : state) : state :=
  mkState (characters s) (loading s) (error s) (currentPage s) v (hasMore s).
Definition set_hasMore (v : bool) (s : state) : state :=
  mkState (characters s) (loading s) (error s) (currentPage s) (totalPages s) v.

(** [data.meta?.totalPages || 1]: a missing [meta] and a zero both give 1.
    On [null] the block has raised before it gets here. *)
Definition totalPages_or_1 (data : payload Character.t) : Z :=
  match data with
  | PObject _ (Some meta) =>
      if Meta.totalPages meta =? 0 then 1 else Meta.totalPages meta
  | _ => 1
  end.

(** The [try] block of [loadCharacters]. *)
Definition load_attempt (page : Z) (reset : bool) : M state unit :=
  data <- DragonBallAPI.getAllCharacters page 12 ;;
  (if reset
   then
     items <- complete (items_or_self data) ;;
     modify (set_characters items)
   else
     st <- get ;;
     items <- complete (items_or_self data) ;;
     modify (set_characters (characters st ++ items))) ;;
  modify (set_totalPages (totalPages_or_1 data)) ;;
  st <- get ;;
  modify (set_hasMore (page <? totalPages st)) ;;
  modify (set_currentPage page).

Definition loadCharacters (page : Z) (reset : bool) : M state unit :=
  modify (set_loading true) ;;
  modify (set_error "") ;;
  try_finally
    (try_catch
       (load_attempt page reset)
       (fun err => modify (set_error (handleApiError err))))
    (modify (set_loading false)).

(** The [try] block of the page's [searchCharacters]. *)
Definition search_attempt {E : Engine} (name race : string) : M state unit :=
  data <- DragonBallAPI.searchCharacters name race 1 50 ;;
  items <- complete (items_or_self data) ;;
  modify (set_characters items) ;;
  modify (set_hasMore false).

Definition searchCharacters {E : Engine} (name race : string) : M state unit :=
  modify (set_loading true) ;;
  modify (set_error "") ;;
  try_finally
    (try_catch
       (search_attempt name race)
       (fun err => modify (set_error (handleApiError err))))
    (modify (set_loading false)).

Definition loadMore : M state unit :=
  st <- get ;;
  if negb (loading st) && hasMore st
  then loadCharacters (currentPage st + 1) false
  else ret tt.

Definition onMount : M state unit := loadCharacters 1 true.

End ListPage.

(** ** The character detail page *)

Module DetailPage.

Record state : Type := mkState {
  character : option Character.t;
  loading : bool;
  error : string
}.

Definition initial : state := mkState None true "".

Definition set_character (v : option Character.t) (s : state) : state :=
  mkState v (loading s) (error s).
Definition set_loading (v : bool) (s : state) : state :=
  mkState (character s) v (error s).
Definition set_error (v : string) (s : state) : state :=
  mkState (character s) (loading s) v.

(** [character] holds the document as it came: a record, or [null]. *)
Definition loadCharacter {E : Engine} (id : ident) : M state unit :=
  modify (set_loading true) ;;
  modify (set_error "") ;;
  try_finally
    (try_catch
       (data <- DragonBallAPI.getCharacterById id ;;
        modify (set_character data))
       (fun err => modify (set_error (handleApiError err))))
    (modify (set_loading false)).

(** [$page.params.id] is a string; the empty one is skipped. *)
Definition onMount {E : Engine} (id : string) : M state unit :=
  if truthy id then loadCharacter (IdStr id) else ret tt.

End DetailPage.

(** ** The search form ([lib/SearchForm.svelte]) *)

Module SearchForm.

Definition races : list string :=
  ["All"; "Saiyan"; "Namekian"; "Human"; "Frieza Race"; "Android"; "Majin";
   "God"; "Angel"]%string.

Section Form.
Context {V : Type}.
(** The [onSearch] prop. *)
Variable onSearch : string -> string -> M V unit.

Definition handleSearch (searchTerm selectedRace : string) : M V unit :=
  onSearch searchTerm (if String.eqb selectedRace "All" then "" else selectedRace)%string.

(** [event.key] is the only field of the event that is read. *)
Definition handleKeyPress (key searchTerm selectedRace : string) : M V unit :=
  if String.eqb key "Enter" then handleSearch searchTerm selectedRace else ret tt.

End Form.

End SearchForm.

(** ** The character card ([lib/CharacterCard.svelte]) *)

Module CharacterCard.

(** The interpolation [{character.id}] of the link. *)
Definition id_segment (character : Character.t) : string :=
  string_of_Z (Character.id character).

(** [href="/character/{character.id}"]; the route hands the last segment to
    the detail page as [$page.params.id]. *)
Definition href (character : Character.t) : string :=
  ("/character/" ++ id_segment character)%string.

End CharacterCard.

(** ** The templates of the two pages: which block is rendered *)

Module ListTemplate.

(** [{#if error}] *)
Definition error_banner (s : ListPage.state) : bool :=
  truthy (ListPage.error s).

(** [{#if characters.length > 0}] *)
Definition grid (s : ListPage.state) : bool :=
  0 <? len (ListPage.characters s).

(** [{#if hasMore && !loading}], inside the block of the grid. *)
Definition load_more_button (s : ListPage.state) : bool :=
  grid s && (ListPage.hasMore s && negb (ListPage.loading s)).

(** [{:else if !loading && !error}] *)
Definition empty_message (s : ListPage.state) : bool :=
  negb (grid s) && (negb (ListPage.loading s) && negb (truthy (ListPage.error s))).

(** The handler of the Retry button. *)
Definition retry : M ListPage.state unit := ListPage.loadCharacters 1 true.

End ListTemplate.

Module DetailTemplate.

Inductive block : Type :=
| Spinner
| ErrorBanner (message : string)
| Details (character : Character.t)
| Nothing.

(** [{#if loading} ... {:else if error} ... {:else if character} ... {/if}] *)
Definition render (s : DetailPage.state) : block :=
  if DetailPage.loading s then Spinner
  else if truthy (DetailPage.error s) then ErrorBanner (DetailPage.error s)
  else match DetailPage.character s with
       | Some character => Details character
       | None => Nothing
       end.

End DetailTemplate.

(** ** Vocabulary of the specification *)

(** The ways a network call fails: the transport fails, the status is not a
    success, or the body does not parse. *)
Inductive network_failure {A : Type} : fetched A -> Prop :=
| transport_failure (e : Error) : network_failure (Rejected e)
| bad_status (r : response A) : ok r = false -> network_failure (Resolved r)
| parse_failure (r : response A) (e : Error) :
    json r = Throw e -> network_failure (Resolved r).

(** The network call succeeds and delivers the document [d]. *)
Inductive network_success {A : Type} : fetched A -> A -> Prop :=
| delivers (r : response A) (d : A) :
    ok r = true -> json r = Return d -> network_success (Resolved r) d.

(** The world after one more request. *)
Definition logged {V : Type} (rq : request) (w : world V) : world V :=
  mkWorld (view w) (requests w ++ [rq]).

(** An envelope in the sense of the data model: [items] and a [meta]. *)
Definition is_envelope {A : Type} (p : payload A) : Prop :=
  match p with
  | PObject _ (Some _) => True
  | _ => False
  end.

(** The invariant of the data model: [itemCount] is the number of items,
    and [currentPage] is a page that exists when there are items at all. *)
Definition count_matches {A : Type} (items : list A) (meta : Meta.t) : bool :=
  Meta.itemCount meta =? len items.

Definition page_in_range (meta : Meta.t) : bool :=
  (1 <=? Meta.currentPage meta) && (Meta.currentPage meta <=? Meta.totalPages meta).

Definition envelope_invariant {A : Type} (p : payload A) : bool :=
  match p with
  | PObject items (Some meta) =>
      count_matches items meta
      && (if 0 <? Meta.totalItems meta then page_in_range meta else true)
  | _ => false
  end.

(** The search criterion in the words of the specification: each filter is
    a case-insensitive substring test, and an empty string is no filter. *)
Definition contains_ci {E : Engine} (text pattern : string) : bool :=
  match pattern with
  | EmptyString => true
  | _ => includes (toLowerCase text) (toLowerCase pattern)
  end.

Definition matches {E : Engine} (name category : string) (c : Character.t) : bool :=
  contains_ci (Character.name c) name && contains_ci (Character.race c) category.

(** Networks used as examples. *)
Definition offline : network :=
  mkNetwork (fun _ _ => Rejected (mkError "Failed to fetch"))
            (fun _ => Rejected (mkError "Failed to fetch"))
            (Rejected (mkError "Failed to fetch")).

(** Every endpoint answers 404. *)
Definition all_404 : network :=
  mkNetwork (fun _ _ => Resolved (mkResponse 404 (Return PNull)))
            (fun _ => Resolved (mkResponse 404 (Return (Some goku))))
            (Resolved (mkResponse 404 (Return PNull))).

(** The remote serves the six bundled records as its only page, with a
    [meta] that satisfies the invariant. *)
Definition one_page : network :=
  mkNetwork (fun page limit =>
               Resolved (mkResponse 200
                 (Return (PObject mockCharacters
                            (Some (Meta.mk 6 6 limit 1 1))))))
            (fun _ => Resolved (mkResponse 200 (Return (Some goku))))
            (Resolved (mkResponse 200 (Return (PObject mockPlanets None)))).

(** The remote answers 200 with the document [null]. *)
Definition null_document : network :=
  mkNetwork (fun _ _ => Resolved (mkResponse 200 (Return PNull)))
            (fun _ => Resolved (mkResponse 200 (Return None)))
            (Resolved (mkResponse 200 (Return PNull))).

Definition fresh {V : Type} (v : V) : world V := mkWorld v [].

(** The list page after the two assignments that open an operation. *)
Definition begun (w : world ListPage.state) : world ListPage.state :=
  mkWorld (ListPage.set_error "" (ListPage.set_loading true (view w)))
          (requests w).

(** The state that a successful [try] block of [loadCharacters] leaves. *)
Definition loaded (page : Z) (reset : bool) (data : payload Character.t)
    (items : list Character.t) (s : ListPage.state) : ListPage.state :=
  let tp := ListPage.totalPages_or_1 data in
  ListPage.set_currentPage page
    (ListPage.set_hasMore (page <? tp)
       (ListPage.set_totalPages tp
          (ListPage.set_characters
             (if reset then items else ListPage.characters s ++ items) s))).

(** What a user can do on the list page, and the handler each action runs. *)
Inductive action : Type :=
| Mount
| Retry
| LoadMore
| SubmitSearch (searchTerm selectedRace : string)
| KeyPress (key searchTerm selectedRace : string).

Definition perform {E : Engine} (a : action) : M ListPage.state unit :=
  match a with
  | Mount => ListPage.onMount
  | Retry => ListTemplate.retry
  | LoadMore => ListPage.loadMore
  | SubmitSearch searchTerm selectedRace =>
      SearchForm.handleSearch ListPage.searchCharacters searchTerm selectedRace
  | KeyPress key searchTerm selectedRace =>
      SearchForm.handleKeyPress ListPage.searchCharacters key searchTerm selectedRace
  end.

(** The worlds of the list page after any number of completed actions, each
    against a network of its own. *)
Inductive reachable {E : Engine} : world ListPage.state -> Prop :=
| reachable_fresh : reachable (fresh ListPage.initial)
| reachable_step (w : world ListPage.state) (a : action) (net : network) :
    reachable w -> reachable (snd (perform a net w)).

(** The items of a completed call of the service. *)
Definition returned_items {A : Type} (r : result (payload A)) : list A :=
  match r with
  | Return (PObject items _) => items
  | Return (PArray elems) => elems
  | _ => []
  end.

(** The message of the last branch of [handleApiError]. *)
Definition unexpected : string := "An unexpected error occurred. Please try again.".

(** What the list page keeps true from one completed action to the next. *)
Definition list_page_invariant (w : world ListPage.state) : Prop :=
  ListPage.loading (view w) = false
  /\ ListPage.totalPages (view w) <> 0
  /\ (ListPage.error (view w) = ""%string \/ ListPage.error (view w) = unexpected)
  /\ (ListPage.hasMore (view w) = true ->
      ListPage.currentPage (view w) < ListPage.totalPages (view w)
      \/ ListPage.characters (view w) = [])
  /\ Forall (fun rq => (exists page, rq = GET_characters page 12)
                       \/ rq = GET_characters 1 50)
            (requests w).

(** The engine of the examples.  It is the host itself on ASCII text and on
    integers below 10^21. *)
#[global] Instance example_engine : Engine | 100.
Proof.
  refine {| toLowerCase := example_toLowerCase;
            number_to_string := example_number_to_string |}.
  - intros s. induction s as [ | c s IH]; [ reflexivity | ].
    cbn [ascii_only example_toLowerCase ascii_toLowerCase].
    intros Hs. apply andb_true_iff in Hs. destruct Hs as [Hc Hs].
    cbv zeta. rewrite Hc. now rewrite (IH Hs).
  - intros s. destruct s as [ | c1 s1]; [ reflexivity | ].
    assert (Hpoint : forall n rest, truthy (lower_encoded n ++ rest) = true).
    { intros n rest.
      assert (Hbytes : forall p, exists c r, encode_code_point p = String c r).
      { intros p. unfold encode_code_point.
        repeat match goal with
               | |- context [if ?b then _ else _] => destruct b
               end; eauto. }
      assert (Hpoints : exists p l, lower_code_point n = p :: l).
      { unfold lower_code_point.
        repeat match goal with
               | |- context [if ?b then _ else _] => destruct b
               end; eauto. }
      destruct Hpoints as (p & l & Hp). unfold lower_encoded. rewrite Hp.
      destruct (Hbytes p) as (c & r & Hc).
      destruct l; cbn [map String.concat]; rewrite Hc; reflexivity. }
    cbn [example_toLowerCase truthy]. cbv zeta.
    destruct (N_of_ascii c1 <? 128)%N; [ reflexivity | ].
    destruct s1 as [ | c2 s2]; [ reflexivity | ].
    destruct (((194 <=? N_of_ascii c1) && (N_of_ascii c1 <=? 223))%N
              && is_continuation c2); [ apply Hpoint | ].
    destruct s2 as [ | c3 s3]; [ reflexivity | ].
    destruct (((224 <=? N_of_ascii c1) && (N_of_ascii c1 <=? 239))%N
              && is_continuation c2 && is_continuation c3);
      [ apply Hpoint | reflexivity ].
  - intros n Hn. unfold example_number_to_string.
    apply Z.ltb_lt in Hn. now rewrite Hn.
Defined.

(** A record whose name and race are ASCII text. *)
Definition ascii_record (c : Character.t) : bool :=
  ascii_only (Character.name c) && ascii_only (Character.race c).

(** ** Properties *)

(** *** The network call *)

Lemma failure_or_success {A : Type} (f : fetched A) :
  network_failure f \/ exists d, network_success f d.
Proof.
  destruct f as [e | r].
  - left. constructor.
  - destruct (ok r) eqn:Hok.
    + destruct (json r) as [d | e] eqn:Hjson.
      * right. exists d. now constructor.
      * left. now apply parse_failure with e.
    + left. now apply bad_status.
Qed.

Lemma failure_excludes_success {A : Type} (f : fetched A) (d : A) :
  network_failure f -> network_success f d -> False.
Proof.
  intros Hf Hs. inversion Hs as [r d' Hok Hjson]; subst.
  inversion Hf; subst; congruence.
Qed.

Lemma success_unique {A : Type} (f : fetched A) (d d' : A) :
  network_success f d -> network_success f d' -> d = d'.
Proof.
  intros Hs Hs'. destruct Hs as [r d Hok Hjson].
  inversion Hs' as [r' d'' Hok' Hjson' Heq]; subst. congruence.
Qed.

(** The first three statements of every [try] block of the service, on a
    failing call: an exception, after the request has been sent. *)
Lemma attempt_failure {V A B : Type} (rq : request) (answer : network -> fetched A)
      (k : A -> M V B) (net : network) (w : world V) :
  network_failure (answer net) ->
  exists e,
    (response <- send rq answer ;; data <- checked_json response ;; k data) net w
    = (Throw e, logged rq w).
Proof.
  intros Hf. unfold bind, send, checked_json, logged. cbv beta.
  destruct Hf as [e | r Hok | r e Hjson].
  - now exists e.
  - rewrite Hok. cbn. eauto.
  - destruct (ok r); cbn; [ | eauto ].
    unfold complete. rewrite Hjson. eauto.
Qed.

Lemma attempt_success {V A B : Type} (rq : request) (answer : network -> fetched A)
      (k : A -> M V B) (net : network) (w : world V) (d : A) :
  network_success (answer net) d ->
  (response <- send rq answer ;; data <- checked_json response ;; k data) net w
  = k d net (logged rq w).
Proof.
  intros Hs. unfold bind, send, checked_json, logged. cbv beta.
  destruct Hs as [r d Hok Hjson].
  rewrite Hok. cbn. unfold complete. now rewrite Hjson.
Qed.

(** *** Arithmetic of the page window *)

Lemma ceil_div_spec (a b : Z) :
  0 < b -> (ceil_div a b - 1) * b < a <= ceil_div a b * b.
Proof.
  intros Hb. unfold ceil_div.
  pose proof (Z.div_mod (- a) b ltac:(lia)) as Hdm.
  pose proof (Z.mod_pos_bound (- a) b Hb) as Hm.
  nia.
Qed.

Lemma ceil_div_least (a b n : Z) :
  0 < b -> a <= n * b -> ceil_div a b <= n.
Proof.
  intros Hb Hn. pose proof (ceil_div_spec a b Hb). nia.
Qed.

Lemma slice_window {A : Type} (l : list A) (start size : Z) :
  0 <= start -> 0 <= size ->
  slice l start (start + size)
  = firstn (Z.to_nat size) (skipn (Z.to_nat start) l).
Proof.
  intros Hs Hz. unfold slice, slice_index.
  set (n := Z.of_nat (List.length l)).
  assert (0 <= n) by (unfold n; lia).
  destruct (start <? 0) eqn:E1; [ lia | ].
  destruct (start + size <? 0) eqn:E2; [ lia | ].
  destruct (Z_le_gt_dec start n) as [Hle | Hgt].
  - rewrite (Z.min_l start n) by lia.
    destruct (Z_le_gt_dec (start + size) n) as [Hle' | Hgt'].
    + rewrite Z.min_l by lia. f_equal. lia.
    + rewrite Z.min_r by lia.
      rewrite !firstn_all2; trivial; rewrite length_skipn; unfold n in *; lia.
  - rewrite (Z.min_r start n) by lia.
    rewrite !skipn_all2 by (unfold n in *; lia).
    now rewrite !firstn_nil.
Qed.

(** The two successive filters amount to one filter by [matches]. *)
Lemma filter_filter {A : Type} (f g : A -> bool) (l : list A) :
  filter g (filter f l) = filter (fun x => f x && g x) l.
Proof.
  induction l as [ | x l IH]; cbn; trivial.
  destruct (f x); cbn; [ destruct (g x) | ]; now rewrite IH.
Qed.

Lemma filter_true {A : Type} (l : list A) : filter (fun _ => true) l = l.
Proof. induction l as [ | x l IH]; cbn; congruence. Qed.

Lemma apply_filters_matches {E : Engine} (name race : string) (l : list Character.t) :
  DragonBallAPI.apply_filters name race l = filter (matches name race) l.
Proof.
  unfold DragonBallAPI.apply_filters, matches, contains_ci.
  destruct name as [ | a name]; destruct race as [ | b race]; cbn [truthy andb].
  - now rewrite filter_true.
  - reflexivity.
  - apply filter_ext. intros c.
    unfold DragonBallAPI.name_matches. now rewrite andb_true_r.
  - now rewrite filter_filter.
Qed.

(** On ASCII text every engine folds as [example_engine] does, so that what
    the examples compute holds for the host. *)
Lemma contains_ci_ascii {E : Engine} (text pattern : string) :
  ascii_only text = true -> ascii_only pattern = true ->
  contains_ci text pattern = contains_ci (E := example_engine) text pattern.
Proof.
  intros Ht Hp. unfold contains_ci.
  rewrite (toLowerCase_ascii (Engine := E) text Ht).
  rewrite (toLowerCase_ascii (Engine := E) pattern Hp).
  rewrite (toLowerCase_ascii (Engine := example_engine) text Ht).
  now rewrite (toLowerCase_ascii (Engine := example_engine) pattern Hp).
Qed.

Lemma matches_ascii {E : Engine} (name race : string) (c : Character.t) :
  ascii_only name = true -> ascii_only race = true -> ascii_record c = true ->
  matches name race c = matches (E := example_engine) name race c.
Proof.
  intros Hn Hr Hc. unfold ascii_record in Hc. apply andb_true_iff in Hc.
  destruct Hc as [Hcn Hcr]. unfold matches.
  now rewrite (contains_ci_ascii _ _ Hcn Hn), (contains_ci_ascii _ _ Hcr Hr).
Qed.

Lemma filter_matches_ascii {E : Engine} (name race : string) (l : list Character.t) :
  ascii_only name = true -> ascii_only race = true ->
  forallb ascii_record l = true ->
  filter (matches name race) l = filter (matches (E := example_engine) name race) l.
Proof.
  intros Hn Hr Hl. apply filter_ext_in. intros c Hin.
  apply matches_ascii; trivial.
  rewrite forallb_forall in Hl. now apply Hl.
Qed.

(** *** The service on each path *)

Section ServicePaths.
Context {V : Type} {E : Engine}.
Variables (net : network) (w : world V).

Lemma getAllCharacters_failure (page limit : Z) :
  network_failure (characters_endpoint net page limit) ->
  DragonBallAPI.getAllCharacters page limit net w
  = (Return (DragonBallAPI.mock_page page limit), logged (GET_characters page limit) w).
Proof.
  intros Hf. unfold DragonBallAPI.getAllCharacters, try_catch, fetch_characters.
  destruct (attempt_failure (GET_characters page limit)
              (fun n => characters_endpoint n page limit)
              (fun data => ret data) net w Hf) as [e He].
  now rewrite He.
Qed.

Lemma getAllCharacters_success (page limit : Z) (d : payload Character.t) :
  network_success (characters_endpoint net page limit) d ->
  DragonBallAPI.getAllCharacters page limit net w
  = (Return d, logged (GET_characters page limit) w).
Proof.
  intros Hs. unfold DragonBallAPI.getAllCharacters, try_catch, fetch_characters.
  now rewrite (attempt_success (GET_characters page limit)
                 (fun n => characters_endpoint n page limit)
                 (fun data => ret data) net w d Hs).
Qed.

Lemma getCharacterById_failure (id : ident) :
  network_failure (character_endpoint net id) ->
  DragonBallAPI.getCharacterById id net w
  = (match DragonBallAPI.find_mock id with
     | Some character => Return (Some character)
     | None => Throw (mkError "Character not found")
     end, logged (GET_character id) w).
Proof.
  intros Hf. unfold DragonBallAPI.getCharacterById, try_catch, fetch_character.
  destruct (attempt_failure (GET_character id)
              (fun n => character_endpoint n id)
              (fun data => ret data) net w Hf) as [e He].
  rewrite He. now destruct (DragonBallAPI.find_mock id).
Qed.

Lemma getCharacterById_success (id : ident) (d : option Character.t) :
  network_success (character_endpoint net id) d ->
  DragonBallAPI.getCharacterById id net w = (Return d, logged (GET_character id) w).
Proof.
  intros Hs. unfold DragonBallAPI.getCharacterById, try_catch, fetch_character.
  now rewrite (attempt_success (GET_character id)
                 (fun n => character_endpoint n id)
                 (fun data => ret data) net w d Hs).
Qed.

Lemma searchCharacters_failure (name race : string) (page limit : Z) :
  network_failure (characters_endpoint net page limit) ->
  DragonBallAPI.searchCharacters name race page limit net w
  = (Return (DragonBallAPI.mock_search name race page limit),
     logged (GET_characters page limit) w).
Proof.
  intros Hf. unfold DragonBallAPI.searchCharacters, try_catch, fetch_characters.
  destruct (attempt_failure (GET_characters page limit)
              (fun n => characters_endpoint n page limit)
              (fun data =>
                 filteredItems <- complete (items_or_self data) ;;
                 ret (with_items data
                        (DragonBallAPI.apply_filters name race filteredItems)))
              net w Hf) as [e He].
  now rewrite He.
Qed.

Lemma searchCharacters_success (name race : string) (page limit : Z)
      (d : payload Character.t) :
  network_success (characters_endpoint net page limit) d ->
  DragonBallAPI.searchCharacters name race page limit net w
  = (Return (match items_or_self d with
             | Return fetched_items =>
                 with_items d (DragonBallAPI.apply_filters name race fetched_items)
             | Throw _ => DragonBallAPI.mock_search name race page limit
             end),
     logged (GET_characters page limit) w).
Proof.
  intros Hs. unfold DragonBallAPI.searchCharacters, try_catch, fetch_characters.
  rewrite (attempt_success (GET_characters page limit)
             (fun n => characters_endpoint n page limit)
             (fun data =>
                filteredItems <- complete (items_or_self data) ;;
                ret (with_items data
                       (DragonBallAPI.apply_filters name race filteredItems)))
             net w d Hs).
  unfold bind, complete. now destruct (items_or_self d).
Qed.

Lemma getPlanets_failure :
  network_failure (planets_endpoint net) ->
  DragonBallAPI.getPlanets net w
  = (Return DragonBallAPI.mock_planets, logged GET_planets w).
Proof.
  intros Hf. unfold DragonBallAPI.getPlanets, try_catch, fetch_planets.
  destruct (attempt_failure GET_planets planets_endpoint
              (fun data => ret data) net w Hf) as [e He].
  now rewrite He.
Qed.

Lemma getPlanets_success (d : payload Planet.t) :
  network_success (planets_endpoint net) d ->
  DragonBallAPI.getPlanets net w = (Return d, logged GET_planets w).
Proof.
  intros Hs. unfold DragonBallAPI.getPlanets, try_catch, fetch_planets.
  now rewrite (attempt_success GET_planets planets_endpoint
                 (fun data => ret data) net w d Hs).
Qed.

(** [searchCharacters] of the service completes with an object on every
    path. *)
Lemma searchCharacters_returns_object (name race : string) (page limit : Z) :
  exists items meta,
    DragonBallAPI.searchCharacters name race page limit net w
    = (Return (PObject items meta), logged (GET_characters page limit) w).
Proof.
  destruct (failure_or_success (characters_endpoint net page limit)) as [Hf | [d Hs]].
  - rewrite (searchCharacters_failure _ _ _ _ Hf). unfold DragonBallAPI.mock_search. eauto.
  - rewrite (searchCharacters_success _ _ _ _ _ Hs).
    destruct d as [ | elems | items meta]; cbn; unfold DragonBallAPI.mock_search; eauto.
Qed.

End ServicePaths.

(** *** Listing from the bundled dataset *)

(** C2. For every page >= 1 and page size >= 1, when the network call
    fails, [getAllCharacters] returns the window of the bundled dataset from
    index (page-1)*limit to (page-1)*limit + limit, with [totalItems] the size
    of the dataset (6) and [totalPages] the ceiling of totalItems / limit;
    page 1 of size 12 holds the six records with one page in total, and page
    2 of size 12 holds none. *)
Theorem listCharacters_fallback_window
    (V : Type) (net : network) (w : world V) (page limit : Z) :
  1 <= page -> 1 <= limit ->
  network_failure (characters_endpoint net page limit) ->
  exists items meta,
    fst (DragonBallAPI.getAllCharacters page limit net w)
    = Return (PObject items (Some meta))
    /\ items = slice mockCharacters ((page - 1) * limit) ((page - 1) * limit + limit)
    /\ items = firstn (Z.to_nat limit)
                 (skipn (Z.to_nat ((page - 1) * limit)) mockCharacters)
    /\ Meta.totalItems meta = len mockCharacters
    /\ len mockCharacters = 6
    /\ Meta.itemCount meta = len items
    /\ Meta.itemsPerPage meta = limit
    /\ Meta.currentPage meta = page
    /\ (Meta.totalPages meta - 1) * limit < Meta.totalItems meta
       <= Meta.totalPages meta * limit
    /\ (page = 1 -> limit = 12 ->
        items = mockCharacters /\ len items = 6 /\ Meta.totalPages meta = 1)
    /\ (page = 2 -> limit = 12 -> items = []).
Proof.
  intros Hpage Hlimit Hf.
  rewrite (getAllCharacters_failure net w page limit Hf).
  unfold DragonBallAPI.mock_page. cbn [fst].
  eexists. eexists. split; [ reflexivity | ].
  cbn [Meta.totalItems Meta.itemCount Meta.itemsPerPage Meta.totalPages Meta.currentPage].
  repeat split; trivial; try (intros; subst; reflexivity).
  - apply slice_window; nia.
  - apply ceil_div_spec; lia.
  - apply ceil_div_spec; lia.
Qed.

Lemma listCharacters_fallback_window_witness :
  exists items meta,
    fst (DragonBallAPI.getAllCharacters 1 12 offline (fresh tt))
    = Return (PObject items (Some meta))
    /\ items = slice mockCharacters ((1 - 1) * 12) ((1 - 1) * 12 + 12)
    /\ items = firstn (Z.to_nat 12) (skipn (Z.to_nat ((1 - 1) * 12)) mockCharacters)
    /\ Meta.totalItems meta = len mockCharacters
    /\ len mockCharacters = 6
    /\ Meta.itemCount meta = len items
    /\ Meta.itemsPerPage meta = 12
    /\ Meta.currentPage meta = 1
    /\ (Meta.totalPages meta - 1) * 12 < Meta.totalItems meta
       <= Meta.totalPages meta * 12
    /\ (1 = 1 -> 12 = 12 ->
        items = mockCharacters /\ len items = 6 /\ Meta.totalPages meta = 1)
    /\ (1 = 2 -> 12 = 12 -> items = []).
Proof.
  apply (listCharacters_fallback_window unit offline (fresh tt) 1 12).
  - lia.
  - lia.
  - apply transport_failure.
Defined.

(** *** Looking one record up *)

Lemma find_mock_found {E : Engine} (id : ident) (c : Character.t) :
  In c mockCharacters -> parseInt id = Some (Character.id c) ->
  DragonBallAPI.find_mock id = Some c.
Proof.
  intros Hin Hid. unfold DragonBallAPI.find_mock. rewrite Hid.
  cbn in Hin.
  destruct Hin as [<- | [<- | [<- | [<- | [<- | [<- | []]]]]]]; reflexivity.
Qed.

Lemma find_mock_absent {E : Engine} (id : ident) :
  (forall c, In c mockCharacters -> parseInt id <> Some (Character.id c)) ->
  DragonBallAPI.find_mock id = None.
Proof.
  intros Habs. destruct (DragonBallAPI.find_mock id) as [c | ] eqn:Hfind; trivial.
  unfold DragonBallAPI.find_mock in Hfind.
  apply find_some in Hfind. destruct Hfind as [Hin Htest].
  exfalso. apply (Habs c Hin).
  destruct (parseInt id) as [n | ]; [ | discriminate ].
  apply Z.eqb_eq in Htest. now subst.
Qed.

(** C3. When the network call fails, [getCharacterById] looks the
    identifier up in the bundled dataset by equality of numbers after
    [parseInt]: it returns the record that matches, and when none matches it
    raises 'Character not found', which is not the error of a failed network
    call.  The identifier "1" gives Goku and "999" raises. *)
Theorem getCharacter_fallback_lookup
    {E : Engine} (V : Type) (net : network) (w : world V) (id : ident) :
  network_failure (character_endpoint net id) ->
  (forall c, In c mockCharacters -> parseInt id = Some (Character.id c) ->
             fst (DragonBallAPI.getCharacterById id net w) = Return (Some c))
  /\ ((forall c, In c mockCharacters -> parseInt id <> Some (Character.id c)) ->
      fst (DragonBallAPI.getCharacterById id net w)
      = Throw (mkError "Character not found"))
  /\ (forall status : Z,
        "Character not found"%string
        <> ("HTTP error! status: " ++ string_of_Z status)%string)
  /\ includes "Character not found" "Failed to fetch" = false
  /\ (id = IdStr "1" ->
      fst (DragonBallAPI.getCharacterById id net w) = Return (Some goku))
  /\ (id = IdStr "999" ->
      fst (DragonBallAPI.getCharacterById id net w)
      = Throw (mkError "Character not found")).
Proof.
  intros Hf. rewrite (getCharacterById_failure net w id Hf). cbn [fst].
  repeat split.
  - intros c Hin Hid. now rewrite (find_mock_found id c Hin Hid).
  - intros Habs. now rewrite (find_mock_absent id Habs).
  - intros status. cbn. discriminate.
  - intros ->. reflexivity.
  - intros ->. reflexivity.
Qed.

Lemma getCharacter_fallback_lookup_witness :
  fst (DragonBallAPI.getCharacterById (IdStr "1") offline (fresh tt))
  = Return (Some goku).
Proof.
  apply (getCharacter_fallback_lookup unit offline (fresh tt) (IdStr "1")).
  - apply transport_failure.
  - reflexivity.
Defined.

(** *** Searching *)

(** C4. When the network call fails, [searchCharacters] applies both
    case-insensitive substring filters (an empty string is no filter) to the
    whole bundled dataset; [totalItems] and [itemCount] are the number of
    records found and [totalPages] is 1.  The name "goku" finds Goku alone;
    the category "saiyan" finds Goku, Vegeta and Gohan. *)
Theorem searchCharacters_fallback_filters
    {E : Engine} (V : Type) (net : network) (w : world V)
    (name race : string) (page limit : Z) :
  network_failure (characters_endpoint net page limit) ->
  exists items meta,
    fst (DragonBallAPI.searchCharacters name race page limit net w)
    = Return (PObject items (Some meta))
    /\ items = filter (matches name race) mockCharacters
    /\ (forall c, In c items <->
                  In c mockCharacters
                  /\ contains_ci (Character.name c) name = true
                  /\ contains_ci (Character.race c) race = true)
    /\ Meta.totalItems meta = len items
    /\ Meta.itemCount meta = len items
    /\ Meta.totalPages meta = 1
    /\ (name = "goku"%string -> race = ""%string -> items = [goku])
    /\ (name = ""%string -> race = "saiyan"%string ->
        items = [goku; vegeta; gohan] /\ In goku items /\ In vegeta items).
Proof.
  intros Hf. rewrite (searchCharacters_failure net w name race page limit Hf).
  unfold DragonBallAPI.mock_search. cbn [fst].
  rewrite apply_filters_matches.
  eexists. eexists. split; [ reflexivity | ].
  cbn [Meta.totalItems Meta.itemCount Meta.totalPages].
  split; [ reflexivity | ].
  split.
  { intros c. rewrite filter_In. unfold matches. rewrite andb_true_iff. tauto. }
  repeat (split; [ reflexivity | ]).
  split.
  - intros -> ->. now rewrite filter_matches_ascii.
  - intros -> ->. rewrite filter_matches_ascii by reflexivity. cbn. tauto.
Qed.

Lemma searchCharacters_fallback_filters_witness :
  exists items meta,
    fst (DragonBallAPI.searchCharacters "goku" "" 1 50 all_404 (fresh tt))
    = Return (PObject items (Some meta))
    /\ items = [goku]
    /\ Meta.totalItems meta = 1 /\ Meta.itemCount meta = 1 /\ Meta.totalPages meta = 1.
Proof.
  destruct (searchCharacters_fallback_filters unit all_404 (fresh tt) "goku" "" 1 50)
    as (items & meta & Hrun & Hitems & _ & Htotal & Hcount & Hpages & Hgoku & _).
  - apply bad_status. reflexivity.
  - exists items, meta. rewrite (Hgoku eq_refl eq_refl) in *. auto.
Defined.



(** *** Listing never raises *)

(** C6, as the code has it.  For every page >= 1 and page size >= 1 and
    every outcome of the network call, [getAllCharacters] sends one request
    and completes with a value, never with an exception.  On a transport
    failure, a status that is not a success, or a body that does not parse,
    the value is the envelope built from the bundled dataset, whose
    [itemCount] is the number of its items.  On success the value is the
    remote's document as it came, whatever it is. *)
Theorem listCharacters_never_raises
    (V : Type) (net : network) (w : world V) (page limit : Z) :
  1 <= page -> 1 <= limit ->
  exists p,
    DragonBallAPI.getAllCharacters page limit net w
    = (Return p, logged (GET_characters page limit) w)
    /\ (network_failure (characters_endpoint net page limit) ->
        p = DragonBallAPI.mock_page page limit
        /\ is_envelope p
        /\ exists items meta,
             p = PObject items (Some meta) /\ count_matches items meta = true)
    /\ (forall d, network_success (characters_endpoint net page limit) d -> p = d).
Proof.
  intros Hpage Hlimit.
  destruct (failure_or_success (characters_endpoint net page limit)) as [Hf | [d Hs]].
  - exists (DragonBallAPI.mock_page page limit).
    split; [ now apply getAllCharacters_failure | ].
    split.
    + intros _. split; [ reflexivity | ]. split; [ exact I | ].
      unfold DragonBallAPI.mock_page. eexists. eexists. split; [ reflexivity | ].
      apply Z.eqb_refl.
    + intros d Hs. destruct (failure_excludes_success _ d Hf Hs).
  - exists d.
    split; [ now apply getAllCharacters_success | ].
    split.
    + intros Hf. destruct (failure_excludes_success _ d Hf Hs).
    + intros d' Hs'. now apply (success_unique _ _ _ Hs Hs').
Qed.

Lemma listCharacters_never_raises_witness :
  exists p,
    DragonBallAPI.getAllCharacters 3 4 all_404 (fresh tt)
    = (Return p, logged (GET_characters 3 4) (fresh tt))
    /\ is_envelope p.
Proof.
  destruct (listCharacters_never_raises unit all_404 (fresh tt) 3 4)
    as (p & Hrun & Hfail & _).
  - lia.
  - lia.
  - exists p. split; [ exact Hrun | ].
    apply Hfail. apply bad_status. reflexivity.
Defined.

(** C6, as stated, fails on the success outcome: when the remote answers
    200 with the document [null], [getAllCharacters 1 12] returns [null],
    which is no envelope. *)
Lemma listCharacters_envelope_counterexample :
  network_success (characters_endpoint null_document 1 12) PNull
  /\ DragonBallAPI.getAllCharacters 1 12 null_document (fresh tt)
     = (Return PNull, logged (GET_characters 1 12) (fresh tt))
  /\ ~ is_envelope (@PNull Character.t).
Proof.
  split; [ now apply delivers | ].
  split; [ reflexivity | ].
  intros Hshape. exact Hshape.
Qed.

(** *** The invariant of the envelope *)

Lemma window_nonempty {A : Type} (l : list A) (start size : Z) :
  0 <= start -> 1 <= size ->
  (slice l start (start + size) <> [] <-> start < len l).
Proof.
  intros Hs Hz. rewrite slice_window by lia.
  rewrite <- length_zero_iff_nil, length_firstn, length_skipn.
  unfold len. lia.
Qed.

Lemma mock_page_in_range (page limit : Z) :
  1 <= page -> 1 <= limit ->
  (1 <= page <= ceil_div (len mockCharacters) limit
   <-> slice mockCharacters ((page - 1) * limit) ((page - 1) * limit + limit) <> []).
Proof.
  intros Hpage Hlimit. rewrite window_nonempty by nia.
  pose proof (ceil_div_spec (len mockCharacters) limit ltac:(lia)) as Hceil.
  split; intros H; nia.
Qed.

(** C1, as the code has it.  An envelope built from the bundled dataset has
    [itemCount] equal to the number of its items.  Its [currentPage] lies
    between 1 and [totalPages] exactly when the page returned is not empty
    for [getAllCharacters] (page >= 1, page size >= 1), exactly when the
    page asked is 1 for [searchCharacters], and always for [getPlanets].
    On network success [getAllCharacters] and [getPlanets] return the
    remote's document unchanged, so that the invariant is the remote's. *)
Theorem envelope_invariant_on_fallback
    {E : Engine} (V : Type) (net : network) (w : world V)
    (page limit : Z) (name race : string) :
  1 <= page -> 1 <= limit ->
  (network_failure (characters_endpoint net page limit) ->
   (exists items meta,
      fst (DragonBallAPI.getAllCharacters page limit net w)
      = Return (PObject items (Some meta))
      /\ count_matches items meta = true
      /\ (page_in_range meta = true <-> items <> []))
   /\ (exists items meta,
         fst (DragonBallAPI.searchCharacters name race page limit net w)
         = Return (PObject items (Some meta))
         /\ count_matches items meta = true
         /\ (page_in_range meta = true <-> page = 1)))
  /\ (network_failure (planets_endpoint net) ->
      exists p,
        fst (DragonBallAPI.getPlanets net w) = Return p
        /\ envelope_invariant p = true)
  /\ (forall d, network_success (characters_endpoint net page limit) d ->
                fst (DragonBallAPI.getAllCharacters page limit net w) = Return d)
  /\ (forall d, network_success (planets_endpoint net) d ->
                fst (DragonBallAPI.getPlanets net w) = Return d).
Proof.
  intros Hpage Hlimit.
  split; [ | split; [ | split ] ].
  - intros Hf. split.
    + rewrite (getAllCharacters_failure net w page limit Hf).
      unfold DragonBallAPI.mock_page. cbn [fst].
      eexists. eexists. split; [ reflexivity | ].
      split; [ apply Z.eqb_refl | ].
      unfold page_in_range.
      cbn [Meta.currentPage Meta.totalPages].
      rewrite andb_true_iff, !Z.leb_le.
      now apply mock_page_in_range.
    + rewrite (searchCharacters_failure net w name race page limit Hf).
      unfold DragonBallAPI.mock_search. cbn [fst].
      eexists. eexists. split; [ reflexivity | ].
      split; [ apply Z.eqb_refl | ].
      unfold page_in_range.
      cbn [Meta.currentPage Meta.totalPages].
      rewrite andb_true_iff, !Z.leb_le. lia.
  - intros Hf. rewrite (getPlanets_failure net w Hf).
    exists DragonBallAPI.mock_planets. split; reflexivity.
  - intros d Hs. now rewrite (getAllCharacters_success net w page limit d Hs).
  - intros d Hs. now rewrite (getPlanets_success net w d Hs).
Qed.

Lemma envelope_invariant_on_fallback_witness :
  exists items meta,
    fst (DragonBallAPI.getAllCharacters 2 4 offline (fresh tt))
    = Return (PObject items (Some meta))
    /\ count_matches items meta = true
    /\ (page_in_range meta = true <-> items <> []).
Proof.
  destruct (envelope_invariant_on_fallback unit offline (fresh tt) 2 4 "" "")
    as (Hfallback & _).
  - lia.
  - lia.
  - destruct Hfallback as (Hlist & _).
    + apply transport_failure.
    + exact Hlist.
Defined.

(** C1, as stated, fails twice.  Offline, page 2 of size 12 is an envelope
    of six items in total whose [currentPage] 2 exceeds its [totalPages] 1.
    Online, a search that keeps one of the six items of a page whose
    envelope satisfies the invariant returns that one item next to the
    remote's [itemCount] of 6. *)
Lemma envelope_invariant_counterexample :
  fst (DragonBallAPI.getAllCharacters 2 12 offline (fresh tt))
  = Return (PObject [] (Some (Meta.mk 6 0 12 1 2)))
  /\ envelope_invariant (PObject (@nil Character.t) (Some (Meta.mk 6 0 12 1 2))) = false
  /\ envelope_invariant (PObject mockCharacters (Some (Meta.mk 6 6 12 1 1))) = true
  /\ fst (DragonBallAPI.searchCharacters "goku" "" 1 12 one_page (fresh tt))
     = Return (PObject [goku] (Some (Meta.mk 6 6 12 1 1)))
  /\ envelope_invariant (PObject [goku] (Some (Meta.mk 6 6 12 1 1))) = false.
Proof. repeat split; reflexivity. Qed.

(** The search of the counterexample gives the same on every engine: its
    strings are ASCII text. *)
Lemma search_goku_on_every_engine {E : Engine} :
  fst (DragonBallAPI.searchCharacters "goku" "" 1 12 one_page (fresh tt))
  = Return (PObject [goku] (Some (Meta.mk 6 6 12 1 1))).
Proof.
  rewrite (searchCharacters_success one_page (fresh tt) "goku" "" 1 12
             (PObject mockCharacters (Some (Meta.mk 6 6 12 1 1))))
    by now apply delivers.
  cbn [fst items_or_self with_items].
  rewrite apply_filters_matches, filter_matches_ascii by reflexivity.
  reflexivity.
Qed.

(** *** The list page *)

Lemma getAllCharacters_total {V : Type} (net : network) (w : world V) (page limit : Z) :
  exists p,
    DragonBallAPI.getAllCharacters page limit net w
    = (Return p, logged (GET_characters page limit) w).
Proof.
  destruct (failure_or_success (characters_endpoint net page limit)) as [Hf | [d Hs]].
  - eexists. now apply getAllCharacters_failure.
  - exists d. now apply getAllCharacters_success.
Qed.

Lemma load_attempt_run (net : network) (w : world ListPage.state)
      (page : Z) (reset : bool) (data : payload Character.t) :
  DragonBallAPI.getAllCharacters page 12 net w
  = (Return data, logged (GET_characters page 12) w) ->
  ListPage.load_attempt page reset net w
  = match items_or_self data with
    | Return items =>
        (Return tt,
         mkWorld (loaded page reset data items (view w))
                 (requests w ++ [GET_characters page 12]))
    | Throw e => (Throw e, logged (GET_characters page 12) w)
    end.
Proof.
  intros Hrun. unfold ListPage.load_attempt, bind. rewrite Hrun.
  destruct reset; destruct data as [ | elems | items meta]; reflexivity.
Qed.

Lemma loadCharacters_run (net : network) (w : world ListPage.state)
      (page : Z) (reset : bool) (data : payload Character.t) :
  DragonBallAPI.getAllCharacters page 12 net (begun w)
  = (Return data, logged (GET_characters page 12) (begun w)) ->
  ListPage.loadCharacters page reset net w
  = (Return tt,
     mkWorld
       (ListPage.set_loading false
          match items_or_self data with
          | Return items => loaded page reset data items (view (begun w))
          | Throw e => ListPage.set_error (handleApiError e) (view (begun w))
          end)
       (requests w ++ [GET_characters page 12])).
Proof.
  intros Hrun. apply (load_attempt_run net (begun w) page reset) in Hrun.
  unfold ListPage.loadCharacters, bind, try_finally, try_catch, modify.
  cbv beta iota. cbn [view requests].
  change (mkWorld (ListPage.set_error "" (ListPage.set_loading true (view w)))
                  (requests w)) with (begun w).
  rewrite Hrun.
  destruct (items_or_self data); reflexivity.
Qed.

Lemma handleApiError_nonempty (e : Error) : handleApiError e <> ""%string.
Proof.
  unfold handleApiError.
  destruct (includes (message e) "Failed to fetch"); [ discriminate | ].
  destruct (includes (message e) "404"); [ discriminate | ].
  destruct (includes (message e) "500"); discriminate.
Qed.

(** The [try] block of [loadCharacters] raises exactly when the remote
    answers with the document [null]. *)
Lemma load_attempt_raises_iff (net : network) (w : world ListPage.state)
      (page : Z) (reset : bool) :
  (exists err, fst (ListPage.load_attempt page reset net w) = Throw err)
  <-> network_success (characters_endpoint net page 12) PNull.
Proof.
  destruct (failure_or_success (characters_endpoint net page 12)) as [Hf | [d Hs]].
  - rewrite (load_attempt_run net w page reset _
               (getAllCharacters_failure net w page 12 Hf)).
    split.
    + intros [err Herr]. discriminate.
    + intros Hs. destruct (failure_excludes_success _ _ Hf Hs).
  - rewrite (load_attempt_run net w page reset _
               (getAllCharacters_success net w page 12 d Hs)).
    destruct d as [ | elems | items meta]; cbn.
    + split; [ now intros _ | eauto ].
    + split; [ intros [err Herr]; discriminate | ].
      intros Hs'. pose proof (success_unique _ _ _ Hs Hs'). discriminate.
    + split; [ intros [err Herr]; discriminate | ].
      intros Hs'. pose proof (success_unique _ _ _ Hs Hs'). discriminate.
Qed.

(** What one [loadCharacters] does, on both paths. *)
Lemma loadCharacters_outcome (net : network) (w : world ListPage.state)
      (page : Z) (reset : bool) :
  exists w',
    ListPage.loadCharacters page reset net w = (Return tt, w')
    /\ ListPage.loading (view w') = false
    /\ requests w' = requests w ++ [GET_characters page 12]
    /\ (forall err,
          fst (ListPage.load_attempt page reset net (begun w)) = Throw err ->
          ListPage.characters (view w') = ListPage.characters (view w)
          /\ ListPage.error (view w') = handleApiError err
          /\ ListPage.error (view w') <> ""%string)
    /\ (fst (ListPage.load_attempt page reset net (begun w)) = Return tt ->
        ListPage.error (view w') = ""%string
        /\ exists data items,
             fst (DragonBallAPI.getAllCharacters page 12 net (begun w)) = Return data
             /\ items_or_self data = Return items
             /\ ListPage.characters (view w')
                = (if reset then items else ListPage.characters (view w) ++ items)).
Proof.
  destruct (getAllCharacters_total net (begun w) page 12) as [data Hrun].
  rewrite (loadCharacters_run net w page reset data Hrun).
  rewrite (load_attempt_run net (begun w) page reset data Hrun).
  rewrite Hrun.
  eexists. split; [ reflexivity | ].
  destruct (items_or_self data) as [items | e] eqn:Hitems; cbn.
  - split; [ reflexivity | ]. split; [ reflexivity | ].
    split; [ intros err Herr; discriminate | ].
    intros _. split; [ reflexivity | ]. exists data, items. auto.
  - split; [ reflexivity | ]. split; [ reflexivity | ].
    split; [ | intros Herr; discriminate ].
    intros err Herr. injection Herr as <-.
    split; [ reflexivity | ]. split; [ reflexivity | ].
    apply handleApiError_nonempty.
Qed.

(** C7. While [loading] is true or [hasMore] is false, [loadMore] sends no
    request and leaves the whole state as it is; otherwise it is
    [loadCharacters (currentPage + 1) false], which sends the request for the
    next page. *)
Theorem loadMore_guard (net : network) (w : world ListPage.state) :
  (ListPage.loading (view w) = true \/ ListPage.hasMore (view w) = false ->
   ListPage.loadMore net w = (Return tt, w)
   /\ requests (snd (ListPage.loadMore net w)) = requests w
   /\ view (snd (ListPage.loadMore net w)) = view w)
  /\ (ListPage.loading (view w) = false -> ListPage.hasMore (view w) = true ->
      ListPage.loadMore net w
      = ListPage.loadCharacters (ListPage.currentPage (view w) + 1) false net w
      /\ requests (snd (ListPage.loadMore net w))
         = requests w ++ [GET_characters (ListPage.currentPage (view w) + 1) 12]).
Proof.
  split.
  - intros Hguard.
    assert (Hrun : ListPage.loadMore net w = (Return tt, w)).
    { unfold ListPage.loadMore, bind, get. cbv beta iota.
      destruct Hguard as [Hloading | Hmore].
      - now rewrite Hloading.
      - rewrite Hmore. now rewrite andb_false_r. }
    now rewrite Hrun.
  - intros Hloading Hmore.
    assert (Hrun : ListPage.loadMore net w
                   = ListPage.loadCharacters
                       (ListPage.currentPage (view w) + 1) false net w).
    { unfold ListPage.loadMore, bind, get. cbv beta iota.
      now rewrite Hloading, Hmore. }
    split; [ exact Hrun | ].
    rewrite Hrun.
    destruct (loadCharacters_outcome net w (ListPage.currentPage (view w) + 1) false)
      as (w' & Hload & _ & Hreq & _).
    now rewrite Hload.
Qed.

Lemma loadMore_guard_witness :
  ListPage.loadMore one_page
    (mkWorld (ListPage.mkState [goku] true "" 1 3 true) [GET_characters 1 12])
  = (Return tt,
     mkWorld (ListPage.mkState [goku] true "" 1 3 true) [GET_characters 1 12])
  /\ requests (snd (ListPage.loadMore offline
                      (mkWorld (ListPage.mkState [goku] false "" 1 3 true)
                               [GET_characters 1 12])))
     = [GET_characters 1 12; GET_characters 2 12].
Proof.
  split.
  - apply (loadMore_guard one_page
             (mkWorld (ListPage.mkState [goku] true "" 1 3 true) [GET_characters 1 12])).
    left. reflexivity.
  - apply (loadMore_guard offline
             (mkWorld (ListPage.mkState [goku] false "" 1 3 true) [GET_characters 1 12]));
      reflexivity.
Defined.




(** *** The detail page *)

(** C10. For every identifier that no record of the bundled dataset
    carries, when the network call fails, [loadCharacter] ends with the
    message 'An unexpected error occurred. Please try again.' and not with
    'Character not found.': the text of the exception, 'Character not found',
    contains none of 'Failed to fetch', '404' and '500'. *)
Theorem detail_not_found_is_unexpected
    {E : Engine} (net : network) (w : world DetailPage.state) (id : ident) :
  network_failure (character_endpoint net id) ->
  (forall c, In c mockCharacters -> parseInt id <> Some (Character.id c)) ->
  exists w',
    DetailPage.loadCharacter id net w = (Return tt, w')
    /\ DetailPage.error (view w')
       = "An unexpected error occurred. Please try again."%string
    /\ DetailPage.error (view w') = handleApiError (mkError "Character not found")
    /\ DetailPage.error (view w') <> "Character not found."%string
    /\ includes "Character not found" "Failed to fetch" = false
    /\ includes "Character not found" "404" = false
    /\ includes "Character not found" "500" = false
    /\ DetailPage.loading (view w') = false
    /\ DetailPage.character (view w') = DetailPage.character (view w)
    /\ requests w' = requests w ++ [GET_character id].
Proof.
  intros Hf Habs.
  unfold DetailPage.loadCharacter, bind, try_finally, try_catch, modify.
  cbv beta iota.
  rewrite (getCharacterById_failure net _ id Hf), (find_mock_absent id Habs).
  cbn. eexists. split; [ reflexivity | ]. cbn.
  repeat split. discriminate.
Qed.

Lemma detail_not_found_is_unexpected_witness :
  exists w',
    DetailPage.loadCharacter (IdStr "999") all_404 (fresh DetailPage.initial)
    = (Return tt, w')
    /\ DetailPage.error (view w')
       = "An unexpected error occurred. Please try again."%string
    /\ DetailPage.loading (view w') = false.
Proof.
  destruct (detail_not_found_is_unexpected all_404 (fresh DetailPage.initial)
              (IdStr "999"))
    as (w' & Hrun & Herror & _ & _ & _ & _ & _ & Hloading & _).
  - apply bad_status. reflexivity.
  - intros c Hin. cbn in Hin.
    destruct Hin as [<- | [<- | [<- | [<- | [<- | [<- | []]]]]]]; discriminate.
  - exists w'. auto.
Defined.

(** *** [parseInt] reads back what a template literal writes *)

Lemma digits_of_uint_acc (d : Decimal.uint) (p : positive) :
  digits 10 (NilEmpty.string_of_uint d) (Some (Zpos p))
  = Some (Zpos (Pos.of_uint_acc d p)).
Proof.
  revert p. induction d; intros p; cbn [NilEmpty.string_of_uint digits Pos.of_uint_acc];
    trivial;
    match goal with
    | |- context [digit_value 10 ?c] =>
        let v := eval vm_compute in (digit_value 10 c) in
        change (digit_value 10 c) with v
    end;
    cbv beta iota; rewrite <- IHd; do 2 f_equal; lia.
Qed.

Lemma digits_of_uint_zero (d : Decimal.uint) :
  digits 10 (NilEmpty.string_of_uint d) (Some 0)
  = Some (Z.of_N (Pos.of_uint d)).
Proof.
  induction d; cbn [NilEmpty.string_of_uint digits Pos.of_uint];
    trivial;
    match goal with
    | |- context [digit_value 10 ?c] =>
        let v := eval vm_compute in (digit_value 10 c) in
        change (digit_value 10 c) with v
    end;
    cbv beta iota; change (0 * 10 + 0) with 0; trivial;
    match goal with
    | |- digits 10 _ (Some ?a) = _ =>
        let v := eval vm_compute in a in change a with v
    end; apply digits_of_uint_acc.
Qed.

Lemma digits_of_uint (d : Decimal.uint) :
  d <> Decimal.Nil ->
  digits 10 (NilEmpty.string_of_uint d) None = Some (Z.of_N (Pos.of_uint d)).
Proof.
  intros Hd. destruct d; [ congruence | .. ];
    cbn [NilEmpty.string_of_uint digits Pos.of_uint];
    match goal with
    | |- context [digit_value 10 ?c] =>
        let v := eval vm_compute in (digit_value 10 c) in
        change (digit_value 10 c) with v
    end;
    cbv beta iota;
    [ apply digits_of_uint_zero | apply digits_of_uint_acc .. ].
Qed.
Lemma string_of_uint_front (d : Decimal.uint) :
  d <> Decimal.Nil ->
  trim_start (NilEmpty.string_of_uint d) = NilEmpty.string_of_uint d
  /\ strip_sign (NilEmpty.string_of_uint d) = (1, NilEmpty.string_of_uint d)
  /\ strip_hex_prefix (NilEmpty.string_of_uint d) = (10, NilEmpty.string_of_uint d).
Proof.
  intros Hd. destruct d as [ | d | d | d | d | d | d | d | d | d | d ];
    [ congruence | .. ]; try (repeat split; reflexivity).
  destruct d; repeat split; reflexivity.
Qed.

Lemma parseInt_string_of_uint (d : Decimal.uint) :
  d <> Decimal.Nil ->
  parseInt_string (NilEmpty.string_of_uint d) = Some (Z.of_N (Pos.of_uint d))
  /\ parseInt_string (String "-" (NilEmpty.string_of_uint d))
     = Some (- Z.of_N (Pos.of_uint d)).
Proof.
  intros Hd. destruct (string_of_uint_front d Hd) as (Htrim & Hsign & Hhex).
  unfold parseInt_string. split.
  - rewrite Htrim, Hsign. cbv beta iota.
    rewrite Hhex. cbv beta iota.
    rewrite (digits_of_uint d Hd). f_equal; lia.
  - change (trim_start (String "-" (NilEmpty.string_of_uint d)))
      with (String "-" (NilEmpty.string_of_uint d)).
    change (strip_sign (String "-" (NilEmpty.string_of_uint d)))
      with (-1, NilEmpty.string_of_uint d).
    cbv beta iota. rewrite Hhex. cbv beta iota.
    rewrite (digits_of_uint d Hd). f_equal; lia.
Qed.

Lemma parseInt_string_of_Z (n : Z) : parseInt_string (string_of_Z n) = Some n.
Proof.
  destruct n as [ | p | p ]; [ reflexivity | | ];
    unfold string_of_Z, Z.to_int, NilZero.string_of_int, NilZero.string_of_uint;
    pose proof (DecimalPos.Unsigned.to_uint_nonnil p) as Hnil;
    destruct (parseInt_string_of_uint (Pos.to_uint p) Hnil) as [Hpos Hneg];
    rewrite (DecimalPos.Unsigned.of_to p) in Hpos, Hneg;
    destruct (Pos.to_uint p); try congruence; assumption.
Qed.

(** *** Strings: what [includes] computes *)

Lemma prefix_iff (sub s : string) :
  String.prefix sub s = true <-> exists post, s = (sub ++ post)%string.
Proof.
  revert s. induction sub as [ | a sub IH]; intros s.
  - split; [ intros _; now exists s | intros _; now destruct s ].
  - destruct s as [ | b s]; cbn.
    + split; [ discriminate | intros [post Hpost]; discriminate ].
    + destruct (ascii_dec a b) as [-> | Hab].
      * rewrite IH. split; intros [post Hpost]; exists post; congruence.
      * split; [ discriminate | intros [post Hpost]; congruence ].
Qed.

Lemma includes_iff (s sub : string) :
  includes s sub = true <-> exists pre post, s = (pre ++ sub ++ post)%string.
Proof.
  induction s as [ | a s IH]; cbn [includes]; rewrite orb_true_iff, prefix_iff.
  - split.
    + intros [[post Hpost] | Hfalse]; [ | discriminate ].
      now exists ""%string, post.
    + intros (pre & post & H). left.
      destruct pre; [ now exists post | discriminate ].
  - rewrite IH. split.
    + intros [[post Hpost] | (pre & post & H)].
      * now exists ""%string, post.
      * exists (String a pre), post. cbn. now rewrite H.
    + intros (pre & post & H). destruct pre as [ | b pre].
      * left. now exists post.
      * right. exists pre, post. cbn in H. congruence.
Qed.

Lemma apply_filters_case {E : Engine} (name name' race race' : string)
      (l : list Character.t) :
  toLowerCase name = toLowerCase name' ->
  toLowerCase race = toLowerCase race' ->
  DragonBallAPI.apply_filters name race l = DragonBallAPI.apply_filters name' race' l.
Proof.
  intros Hn Hr. unfold DragonBallAPI.apply_filters.
  rewrite <- (toLowerCase_truthy name), <- (toLowerCase_truthy race), Hn, Hr.
  rewrite !toLowerCase_truthy.
  unfold DragonBallAPI.name_matches, DragonBallAPI.race_matches.
  now rewrite Hn, Hr.
Qed.

(** *** Pages of a list *)

Lemma firstn_plus {A : Type} (n m : nat) (l : list A) :
  firstn (n + m) l = firstn n l ++ firstn m (skipn n l).
Proof.
  revert l. induction n as [ | n IH]; intros l; cbn; trivial.
  destruct l as [ | x l]; cbn.
  - now rewrite firstn_nil.
  - now rewrite IH.
Qed.

Lemma chunks_concat {A : Type} (k n : nat) (l : list A) :
  List.concat (map (fun p => firstn k (skipn ((p - 1) * k) l)) (seq 1 n))
  = firstn (n * k) l.
Proof.
  induction n as [ | n IH]; [ reflexivity | ].
  rewrite seq_S, map_app, concat_app, IH. cbn [map List.concat].
  rewrite app_nil_r.
  replace (1 + n - 1)%nat with n by lia.
  replace (S n * k)%nat with (n * k + k)%nat by lia.
  now rewrite firstn_plus.
Qed.

(** *** More of the service *)

(** X1. [getCharacterById] returns the remote's record whenever the call
    succeeds, without looking at the bundled dataset; it raises only after a
    failed call for an identifier that no bundled record carries, and the
    exception is then always 'Character not found'. *)
Theorem getCharacterById_raises_only_not_found
    {E : Engine} (V : Type) (net : network) (w : world V) (id : ident) :
  (forall d, network_success (character_endpoint net id) d ->
             DragonBallAPI.getCharacterById id net w
             = (Return d, logged (GET_character id) w))
  /\ (forall e, fst (DragonBallAPI.getCharacterById id net w) = Throw e ->
                e = mkError "Character not found"
                /\ network_failure (character_endpoint net id)
                /\ forall c, In c mockCharacters ->
                             parseInt id <> Some (Character.id c)).
Proof.
  split; [ intros d Hs; now apply getCharacterById_success | ].
  intros e He.
  destruct (failure_or_success (character_endpoint net id)) as [Hf | [d Hs]].
  - rewrite (getCharacterById_failure net w id Hf) in He. cbn [fst] in He.
    destruct (DragonBallAPI.find_mock id) as [c | ] eqn:Hfind; [ discriminate | ].
    injection He as <-. split; [ reflexivity | ]. split; [ exact Hf | ].
    intros c Hin Hid. now rewrite (find_mock_found id c Hin Hid) in Hfind.
  - rewrite (getCharacterById_success net w id d Hs) in He. discriminate.
Qed.

Lemma getCharacterById_raises_only_not_found_witness :
  DragonBallAPI.getCharacterById (IdStr "4") one_page (fresh tt)
  = (Return (Some goku), logged (GET_character (IdStr "4")) (fresh tt))
  /\ parseInt (IdStr "7") <> Some (Character.id cell).
Proof.
  destruct (getCharacterById_raises_only_not_found unit one_page (fresh tt) (IdStr "4"))
    as [Hsuccess _].
  destruct (getCharacterById_raises_only_not_found unit offline (fresh tt) (IdStr "7"))
    as [_ Hraise].
  split.
  - apply Hsuccess. now apply delivers.
  - apply (Hraise (mkError "Character not found")); [ reflexivity | ].
    cbn. tauto.
Defined.

(** X2. [searchCharacters] of the service never raises: on every outcome of
    the network call it completes with an object after one request, and every
    item of that object passes both filters.  When the remote answers 200
    with the document [null], the answer is the one of a failed call: the
    bundled dataset, filtered. *)
Theorem searchCharacters_never_raises
    {E : Engine} (V : Type) (net : network) (w : world V) (name race : string) (page limit : Z) :
  exists items meta,
    DragonBallAPI.searchCharacters name race page limit net w
    = (Return (PObject items meta), logged (GET_characters page limit) w)
    /\ (forall c, In c items -> matches name race c = true)
    /\ (network_success (characters_endpoint net page limit) PNull ->
        PObject items meta = DragonBallAPI.mock_search name race page limit).
Proof.
  destruct (failure_or_success (characters_endpoint net page limit)) as [Hf | [d Hs]].
  - rewrite (searchCharacters_failure net w name race page limit Hf).
    unfold DragonBallAPI.mock_search. rewrite apply_filters_matches.
    eexists. eexists. split; [ reflexivity | ]. split.
    + intros c Hin. now apply filter_In in Hin.
    + intros Hs. destruct (failure_excludes_success _ _ Hf Hs).
  - rewrite (searchCharacters_success net w name race page limit d Hs).
    destruct d as [ | elems | items meta]; cbn [items_or_self with_items];
      unfold DragonBallAPI.mock_search; rewrite apply_filters_matches;
      (eexists; eexists; split; [ reflexivity | ]; split;
       [ intros c Hin; now apply filter_In in Hin | ]).
    + reflexivity.
    + intros Hs'. pose proof (success_unique _ _ _ Hs Hs'). discriminate.
    + intros Hs'. pose proof (success_unique _ _ _ Hs Hs'). discriminate.
Qed.

Lemma searchCharacters_never_raises_witness :
  exists items meta,
    DragonBallAPI.searchCharacters "ge" "" 3 7 null_document (fresh tt)
    = (Return (PObject items meta), logged (GET_characters 3 7) (fresh tt))
    /\ PObject items meta = PObject [vegeta] (Some (Meta.mk 1 1 7 1 3)).
Proof.
  destruct (searchCharacters_never_raises unit null_document (fresh tt) "ge" "" 3 7)
    as (items & meta & Hrun & _ & Hnull).
  exists items, meta. split; [ exact Hrun | ].
  rewrite Hnull; [ reflexivity | now apply delivers ].
Defined.

(** X3. [getPlanets] never raises: after one request it completes with the
    remote's document when the call succeeds and with the three bundled
    planets, counted as 3 of 3 on page 1 of 1, when it fails. *)
Theorem getPlanets_never_raises (V : Type) (net : network) (w : world V) :
  exists p,
    DragonBallAPI.getPlanets net w = (Return p, logged GET_planets w)
    /\ (forall d, network_success (planets_endpoint net) d -> p = d)
    /\ (network_failure (planets_endpoint net) ->
        p = PObject mockPlanets (Some (Meta.mk 3 3 10 1 1))
        /\ map Planet.name mockPlanets = ["Earth"; "Namek"; "Vegeta"]%string).
Proof.
  destruct (failure_or_success (planets_endpoint net)) as [Hf | [d Hs]].
  - exists DragonBallAPI.mock_planets.
    split; [ now apply getPlanets_failure | ]. split.
    + intros d Hs. destruct (failure_excludes_success _ _ Hf Hs).
    + intros _. split; reflexivity.
  - exists d. split; [ now apply getPlanets_success | ]. split.
    + intros d' Hs'. apply (success_unique _ _ _ Hs Hs').
    + intros Hf. destruct (failure_excludes_success _ _ Hf Hs).
Qed.

Lemma getPlanets_never_raises_witness :
  exists p,
    DragonBallAPI.getPlanets all_404 (fresh tt) = (Return p, logged GET_planets (fresh tt))
    /\ p = PObject mockPlanets (Some (Meta.mk 3 3 10 1 1)).
Proof.
  destruct (getPlanets_never_raises unit all_404 (fresh tt)) as (p & Hrun & _ & Hfail).
  exists p. split; [ exact Hrun | ].
  apply Hfail. apply bad_status. reflexivity.
Defined.

(** X4. Offline, the pages of [getAllCharacters] partition the bundled
    dataset: for every page size >= 1, the items of pages 1 to [totalPages]
    in order are the dataset itself; no page has more items than the page
    size, every page before the last is full, and every page after the last
    is empty. *)
Theorem fallback_pages_partition
    (V : Type) (net : network) (w : world V) (limit : Z) :
  1 <= limit ->
  (forall page, network_failure (characters_endpoint net page limit)) ->
  List.concat
    (map (fun p => returned_items
                     (fst (DragonBallAPI.getAllCharacters (Z.of_nat p) limit net w)))
         (seq 1 (Z.to_nat (ceil_div (len mockCharacters) limit))))
  = mockCharacters
  /\ (forall page, 1 <= page ->
        len (returned_items (fst (DragonBallAPI.getAllCharacters page limit net w)))
        <= limit)
  /\ (forall page, 1 <= page < ceil_div (len mockCharacters) limit ->
        len (returned_items (fst (DragonBallAPI.getAllCharacters page limit net w)))
        = limit)
  /\ (forall page, ceil_div (len mockCharacters) limit < page ->
        returned_items (fst (DragonBallAPI.getAllCharacters page limit net w)) = []).
Proof.
  intros Hlimit Hdown.
  pose proof (ceil_div_spec (len mockCharacters) limit ltac:(lia)) as Hceil.
  assert (Hpage : forall page, 1 <= page ->
            returned_items (fst (DragonBallAPI.getAllCharacters page limit net w))
            = firstn (Z.to_nat limit)
                (skipn (Z.to_nat ((page - 1) * limit)) mockCharacters)).
  { intros page Hp. rewrite (getAllCharacters_failure net w page limit (Hdown page)).
    cbn [fst DragonBallAPI.mock_page returned_items].
    apply slice_window; nia. }
  assert (Hsize : len mockCharacters = 6) by reflexivity.
  split; [ | split; [ | split ] ].
  - rewrite (map_ext_in _
               (fun p => firstn (Z.to_nat limit)
                           (skipn ((p - 1) * Z.to_nat limit) mockCharacters))).
    + rewrite chunks_concat. apply firstn_all2.
      apply Nat2Z.inj_le. rewrite Nat2Z.inj_mul, !Z2Nat.id by nia.
      apply Hceil.
    + intros p Hp. apply in_seq in Hp. rewrite Hpage by lia.
      do 2 f_equal. rewrite Z2Nat.inj_mul by lia. f_equal. lia.
  - intros page Hp. rewrite (Hpage page Hp). unfold len.
    rewrite length_firstn. lia.
  - intros page Hp. rewrite (Hpage page) by lia.
    assert (0 <= (page - 1) * limit /\ (page - 1) * limit + limit <= 6) as [Hs0 Hs1]
      by nia.
    unfold len. rewrite length_firstn, length_skipn.
    change (List.length mockCharacters) with 6%nat. lia.
  - intros page Hp. rewrite (Hpage page) by nia.
    assert (6 <= (page - 1) * limit) as Hs by nia.
    rewrite skipn_all2; [ apply firstn_nil | ].
    change (List.length mockCharacters) with 6%nat. lia.
Qed.

Lemma fallback_pages_partition_witness :
  List.concat
    (map (fun p => returned_items
                     (fst (DragonBallAPI.getAllCharacters (Z.of_nat p) 4 offline (fresh tt))))
         (seq 1 (Z.to_nat (ceil_div (len mockCharacters) 4))))
  = mockCharacters.
Proof.
  apply (fallback_pages_partition unit offline (fresh tt) 4).
  - lia.
  - intros page. apply transport_failure.
Defined.

(** X5. What the two filters of [searchCharacters] keep: a record stays
    exactly when its lower-cased name has the lower-cased query as a
    contiguous piece and its lower-cased race has the lower-cased category as
    one; the order of the records is kept, and an empty query keeps all. *)
Theorem filters_keep_substring_matches
    {E : Engine} (name race : string) (l : list Character.t) (c : Character.t) :
  (In c (DragonBallAPI.apply_filters name race l) <->
   In c l
   /\ (exists pre post,
         toLowerCase (Character.name c) = (pre ++ toLowerCase name ++ post)%string)
   /\ (exists pre post,
         toLowerCase (Character.race c) = (pre ++ toLowerCase race ++ post)%string))
  /\ DragonBallAPI.apply_filters "" "" l = l
  /\ DragonBallAPI.apply_filters name race (DragonBallAPI.apply_filters name race l)
     = DragonBallAPI.apply_filters name race l.
Proof.
  split; [ | split ].
  - rewrite apply_filters_matches, filter_In. unfold matches, contains_ci.
    rewrite andb_true_iff.
    assert (Hany : forall text pattern : string,
               match pattern with
               | EmptyString => true
               | String _ _ => includes (toLowerCase text) (toLowerCase pattern)
               end = true
               <-> exists pre post,
                     toLowerCase text = (pre ++ toLowerCase pattern ++ post)%string).
    { intros text pattern. rewrite <- includes_iff.
      destruct pattern; [ | reflexivity ].
      rewrite (toLowerCase_ascii "" eq_refl). cbn [ascii_toLowerCase].
      split; [ intros _ | intros _; reflexivity ].
      apply includes_iff. now exists ""%string, (toLowerCase text). }
    now rewrite !Hany.
  - reflexivity.
  - rewrite !apply_filters_matches.
    rewrite filter_filter. apply filter_ext. intros x.
    now destruct (matches name race x).
Qed.

Lemma filters_keep_substring_matches_witness :
  In gohan (DragonBallAPI.apply_filters "GO" "saiyan" mockCharacters).
Proof.
  apply (filters_keep_substring_matches "GO" "saiyan" mockCharacters gohan).
  split; [ cbn; tauto | ]. split.
  - now exists ""%string, "han"%string.
  - now exists "half-"%string, ""%string.
Defined.

(** X6. The search does not depend on the letter case of the query: two
    names that lower-case to the same string, and two categories that do,
    give the same completion and the same requests, on every path. *)
Theorem search_ignores_case
    {E : Engine} (V : Type) (net : network) (w : world V)
    (name name' race race' : string) (page limit : Z) :
  toLowerCase name = toLowerCase name' ->
  toLowerCase race = toLowerCase race' ->
  DragonBallAPI.searchCharacters name race page limit net w
  = DragonBallAPI.searchCharacters name' race' page limit net w.
Proof.
  intros Hn Hr.
  destruct (failure_or_success (characters_endpoint net page limit)) as [Hf | [d Hs]].
  - rewrite !(searchCharacters_failure net w _ _ page limit Hf).
    unfold DragonBallAPI.mock_search.
    now rewrite (apply_filters_case name name' race race' _ Hn Hr).
  - rewrite !(searchCharacters_success net w _ _ page limit d Hs).
    unfold DragonBallAPI.mock_search.
    destruct (items_or_self d);
      now rewrite (apply_filters_case name name' race race' _ Hn Hr).
Qed.

Lemma search_ignores_case_witness :
  DragonBallAPI.searchCharacters "GoKU" "SAIYAN" 1 50 offline (fresh tt)
  = DragonBallAPI.searchCharacters "goku" "saiyan" 1 50 offline (fresh tt).
Proof.
  apply (search_ignores_case unit offline (fresh tt)); reflexivity.
Defined.

(** X7. Without filters the search of the service is a listing: when the
    remote answers with an object, [searchCharacters "" ""] completes as
    [getAllCharacters] does.  When the call fails it is not: the search
    returns the whole bundled dataset whatever the page and the page size, as
    one page. *)
Theorem search_without_filters
    {E : Engine} (V : Type) (net : network) (w : world V) (page limit : Z) :
  (forall items meta,
     network_success (characters_endpoint net page limit) (PObject items meta) ->
     DragonBallAPI.searchCharacters "" "" page limit net w
     = DragonBallAPI.getAllCharacters page limit net w)
  /\ (network_failure (characters_endpoint net page limit) ->
      DragonBallAPI.searchCharacters "" "" page limit net w
      = (Return (PObject mockCharacters (Some (Meta.mk 6 6 limit 1 page))),
         logged (GET_characters page limit) w)).
Proof.
  split.
  - intros items meta Hs.
    rewrite (searchCharacters_success net w "" "" page limit _ Hs).
    now rewrite (getAllCharacters_success net w page limit _ Hs).
  - intros Hf. now rewrite (searchCharacters_failure net w "" "" page limit Hf).
Qed.

Lemma search_without_filters_witness :
  DragonBallAPI.searchCharacters "" "" 1 12 one_page (fresh tt)
  = DragonBallAPI.getAllCharacters 1 12 one_page (fresh tt)
  /\ DragonBallAPI.searchCharacters "" "" 5 2 offline (fresh tt)
     = (Return (PObject mockCharacters (Some (Meta.mk 6 6 2 1 5))),
        logged (GET_characters 5 2) (fresh tt)).
Proof.
  split.
  - destruct (search_without_filters unit one_page (fresh tt) 1 12) as [Hlisting _].
    apply (Hlisting mockCharacters (Some (Meta.mk 6 6 12 1 1))). now apply delivers.
  - destruct (search_without_filters unit offline (fresh tt) 5 2) as [_ Hall].
    apply Hall. apply transport_failure.
Defined.

(** *** More of the detail page *)

Lemma loadCharacter_run {E : Engine} (net : network) (w : world DetailPage.state)
      (id : ident) (r : result (option Character.t)) :
  DragonBallAPI.getCharacterById id net
    (mkWorld (DetailPage.set_error "" (DetailPage.set_loading true (view w)))
             (requests w))
  = (r, logged (GET_character id)
          (mkWorld (DetailPage.set_error "" (DetailPage.set_loading true (view w)))
                   (requests w))) ->
  DetailPage.loadCharacter id net w
  = (Return tt,
     mkWorld
       match r with
       | Return data => DetailPage.mkState data false ""
       | Throw err =>
           DetailPage.mkState (DetailPage.character (view w)) false (handleApiError err)
       end
       (requests w ++ [GET_character id])).
Proof.
  intros Hrun.
  unfold DetailPage.loadCharacter, bind, try_finally, try_catch, modify.
  cbv beta iota. cbn [view requests]. rewrite Hrun.
  now destruct r.
Qed.

(** The three ways [loadCharacter] ends. *)
Lemma loadCharacter_cases {E : Engine}
      (net : network) (w : world DetailPage.state) (id : ident) :
  exists w',
    DetailPage.loadCharacter id net w = (Return tt, w')
    /\ requests w' = requests w ++ [GET_character id]
    /\ DetailPage.loading (view w') = false
    /\ ((exists c, view w' = DetailPage.mkState (Some c) false ""
                   /\ DetailTemplate.render (view w') = DetailTemplate.Details c)
        \/ (view w' = DetailPage.mkState None false ""
            /\ DetailTemplate.render (view w') = DetailTemplate.Nothing
            /\ network_success (character_endpoint net id) None)
        \/ (view w' = DetailPage.mkState (DetailPage.character (view w)) false unexpected
            /\ DetailTemplate.render (view w') = DetailTemplate.ErrorBanner unexpected
            /\ network_failure (character_endpoint net id)
            /\ DragonBallAPI.find_mock id = None)).
Proof.
  set (w0 := mkWorld (DetailPage.set_error "" (DetailPage.set_loading true (view w)))
                     (requests w)).
  destruct (failure_or_success (character_endpoint net id)) as [Hf | [d Hs]].
  - pose proof (getCharacterById_failure net w0 id Hf) as Hrun.
    rewrite (loadCharacter_run net w id _ Hrun).
    eexists. split; [ reflexivity | ]. cbn [view requests].
    split; [ reflexivity | ].
    destruct (DragonBallAPI.find_mock id) as [c | ] eqn:Hfind.
    + split; [ reflexivity | ]. left. exists c. split; reflexivity.
    + split; [ reflexivity | ]. right. right. repeat split; trivial.
  - pose proof (getCharacterById_success net w0 id d Hs) as Hrun.
    rewrite (loadCharacter_run net w id _ Hrun).
    eexists. split; [ reflexivity | ]. cbn [view requests].
    split; [ reflexivity | ]. split; [ reflexivity | ].
    destruct d as [c | ].
    + left. exists c. split; reflexivity.
    + right. left. repeat split; trivial.
Qed.

(** X8. Whatever the network and the identifier, [loadCharacter] sends one
    request and ends with [loading] cleared, in one of three states: the
    record obtained is stored and shown, with [error] empty; the remote
    answered 200 with the document [null], which is stored as it came, with
    [error] empty, and no block is rendered; or [error] is 'An unexpected
    error occurred. Please try again.' and the record stored before, if any,
    stays.  The page never ends with the network, not-found or server
    message. *)
Theorem detail_page_outcomes
    {E : Engine} (net : network) (w : world DetailPage.state) (id : ident) :
  exists w',
    DetailPage.loadCharacter id net w = (Return tt, w')
    /\ requests w' = requests w ++ [GET_character id]
    /\ DetailPage.loading (view w') = false
    /\ ((exists c, view w' = DetailPage.mkState (Some c) false ""
                   /\ DetailTemplate.render (view w') = DetailTemplate.Details c)
        \/ (view w' = DetailPage.mkState None false ""
            /\ DetailTemplate.render (view w') = DetailTemplate.Nothing
            /\ network_success (character_endpoint net id) None)
        \/ (view w' = DetailPage.mkState (DetailPage.character (view w)) false unexpected
            /\ DetailTemplate.render (view w') = DetailTemplate.ErrorBanner unexpected
            /\ network_failure (character_endpoint net id)
            /\ DragonBallAPI.find_mock id = None)).
Proof.
  set (w0 := mkWorld (DetailPage.set_error "" (DetailPage.set_loading true (view w)))
                     (requests w)).
  destruct (failure_or_success (character_endpoint net id)) as [Hf | [d Hs]].
  - pose proof (getCharacterById_failure net w0 id Hf) as Hrun.
    rewrite (loadCharacter_run net w id _ Hrun).
    eexists. split; [ reflexivity | ]. cbn [view requests].
    split; [ reflexivity | ].
    destruct (DragonBallAPI.find_mock id) as [c | ] eqn:Hfind.
    + split; [ reflexivity | ]. left. exists c. split; reflexivity.
    + split; [ reflexivity | ]. right. right. repeat split; trivial.
  - pose proof (getCharacterById_success net w0 id d Hs) as Hrun.
    rewrite (loadCharacter_run net w id _ Hrun).
    eexists. split; [ reflexivity | ]. cbn [view requests].
    split; [ reflexivity | ]. split; [ reflexivity | ].
    destruct d as [c | ].
    + left. exists c. split; reflexivity.
    + right. left. repeat split; trivial.
Qed.

(** X9. Mounting the detail page with an empty identifier sends nothing
    and changes nothing, so that the page, which starts with [loading] true,
    keeps showing the spinner.  With any other identifier it sends one request
    and never ends on the spinner: it shows the record, or the error banner,
    or no block at all, the last only when the remote answered 200 with the
    document [null]. *)
Theorem detail_mount {E : Engine} (net : network) (id : string) :
  DetailPage.onMount "" net (fresh DetailPage.initial)
  = (Return tt, fresh DetailPage.initial)
  /\ DetailTemplate.render DetailPage.initial = DetailTemplate.Spinner
  /\ (id <> ""%string ->
      exists w',
        DetailPage.onMount id net (fresh DetailPage.initial) = (Return tt, w')
        /\ requests w' = [GET_character (IdStr id)]
        /\ DetailTemplate.render (view w') <> DetailTemplate.Spinner
        /\ ((exists c, DetailTemplate.render (view w') = DetailTemplate.Details c)
            \/ DetailTemplate.render (view w') = DetailTemplate.ErrorBanner unexpected
            \/ (DetailTemplate.render (view w') = DetailTemplate.Nothing
                /\ network_success (character_endpoint net (IdStr id)) None))).
Proof.
  split; [ reflexivity | ]. split; [ reflexivity | ].
  intros Hid. unfold DetailPage.onMount.
  destruct id as [ | a id]; [ congruence | ]. cbn [truthy].
  destruct (loadCharacter_cases net (fresh DetailPage.initial) (IdStr (String a id)))
    as (w' & Hrun & Hreq & _
        & [(c & _ & Hshow) | [(_ & Hshow & Hnull) | (_ & Hshow & _)]]);
    exists w'; (split; [ exact Hrun | ]); (split; [ exact Hreq | ]);
    (split; [ rewrite Hshow; discriminate | ]).
  - left. now exists c.
  - right. right. now split.
  - right. now left.
Qed.

Lemma detail_mount_witness :
  exists w',
    DetailPage.onMount "2" null_document (fresh DetailPage.initial) = (Return tt, w')
    /\ requests w' = [GET_character (IdStr "2")]
    /\ DetailTemplate.render (view w') = DetailTemplate.Nothing.
Proof.
  destruct (detail_mount null_document "2") as (_ & _ & Hmount).
  destruct (Hmount ltac:(discriminate)) as (w' & Hrun & Hreq & _ & Hshow).
  exists w'. split; [ exact Hrun | ]. split; [ exact Hreq | ].
  injection Hrun as <-. reflexivity.
Defined.

(** *** More of the list page *)

Lemma totalPages_or_1_nonzero (data : payload Character.t) :
  ListPage.totalPages_or_1 data <> 0.
Proof.
  destruct data as [ | elems | items [meta | ]]; cbn; try discriminate.
  destruct (Z.eqb_spec (Meta.totalPages meta) 0); [ discriminate | assumption ].
Qed.

(** The only exception that the [try] block of [loadCharacters] meets. *)
Lemma items_or_self_raises {A : Type} (data : payload A) (e : Error) :
  items_or_self data = Throw e -> data = PNull /\ handleApiError e = unexpected.
Proof.
  destruct data; cbn; intros H; try discriminate.
  injection H as <-. split; reflexivity.
Qed.

(** The page's [searchCharacters], run. *)
Lemma page_search_run {E : Engine} (net : network) (w : world ListPage.state) (name race : string) :
  exists items meta,
    DragonBallAPI.searchCharacters name race 1 50 net (begun w)
    = (Return (PObject items meta), logged (GET_characters 1 50) (begun w))
    /\ ListPage.searchCharacters name race net w
       = (Return tt,
          mkWorld (ListPage.mkState items false ""
                     (ListPage.currentPage (view w)) (ListPage.totalPages (view w)) false)
                  (requests w ++ [GET_characters 1 50])).
Proof.
  destruct (searchCharacters_returns_object net (begun w) name race 1 50)
    as (items & meta & Hrun).
  exists items, meta. split; [ exact Hrun | ].
  unfold ListPage.searchCharacters, ListPage.search_attempt,
    bind, try_finally, try_catch, modify.
  cbv beta iota. cbn [view requests].
  change (mkWorld (ListPage.set_error "" (ListPage.set_loading true (view w)))
                  (requests w)) with (begun w).
  rewrite Hrun. reflexivity.
Qed.

(** [getAllCharacters] answers the same in every world. *)
Lemma getAllCharacters_answer {V V' : Type} (net : network)
      (w : world V) (w' : world V') (page limit : Z) :
  fst (DragonBallAPI.getAllCharacters page limit net w)
  = fst (DragonBallAPI.getAllCharacters page limit net w').
Proof.
  destruct (failure_or_success (characters_endpoint net page limit)) as [Hf | [d Hs]].
  - now rewrite !(getAllCharacters_failure net _ page limit Hf).
  - now rewrite !(getAllCharacters_success net _ page limit d Hs).
Qed.

Lemma loadCharacters_view (net : network) (w : world ListPage.state)
      (page : Z) (reset : bool) :
  exists data,
    fst (DragonBallAPI.getAllCharacters page 12 net w) = Return data
    /\ snd (ListPage.loadCharacters page reset net w)
       = mkWorld
           match items_or_self data with
           | Return items =>
               ListPage.mkState
                 (if reset then items else ListPage.characters (view w) ++ items)
                 false ""
                 page (ListPage.totalPages_or_1 data)
                 (page <? ListPage.totalPages_or_1 data)
           | Throw e =>
               ListPage.mkState (ListPage.characters (view w)) false (handleApiError e)
                 (ListPage.currentPage (view w)) (ListPage.totalPages (view w))
                 (ListPage.hasMore (view w))
           end
           (requests w ++ [GET_characters page 12]).
Proof.
  destruct (getAllCharacters_total net (begun w) page 12) as [data Hrun].
  exists data. split.
  - rewrite (getAllCharacters_answer net w (begun w)). now rewrite Hrun.
  - rewrite (loadCharacters_run net w page reset data Hrun). cbn [snd].
    now destruct (items_or_self data).
Qed.

(** X10. A load that fails changes [error] and [loading] only: the list,
    [currentPage], [totalPages] and [hasMore] stay, and the message is 'An
    unexpected error occurred. Please try again.'. *)
Theorem failed_load_changes_error_only
    (net : network) (w : world ListPage.state) (page : Z) (reset : bool) (err : Error) :
  fst (ListPage.load_attempt page reset net (begun w)) = Throw err ->
  view (snd (ListPage.loadCharacters page reset net w))
  = ListPage.mkState (ListPage.characters (view w)) false unexpected
      (ListPage.currentPage (view w)) (ListPage.totalPages (view w))
      (ListPage.hasMore (view w)).
Proof.
  intros Hfail.
  destruct (getAllCharacters_total net (begun w) page 12) as [data Hrun].
  rewrite (load_attempt_run net (begun w) page reset data Hrun) in Hfail.
  rewrite (loadCharacters_run net w page reset data Hrun). cbn [snd view].
  destruct (items_or_self data) as [items | e] eqn:Hitems; [ discriminate | ].
  destruct (items_or_self_raises data e Hitems) as [_ Hmsg].
  cbn. now rewrite Hmsg.
Qed.

Lemma failed_load_changes_error_only_witness :
  view (snd (ListPage.loadCharacters 3 false null_document
               (mkWorld (ListPage.mkState [goku; cell] false "" 2 5 true) [])))
  = ListPage.mkState [goku; cell] false unexpected 2 5 true.
Proof.
  apply (failed_load_changes_error_only null_document
           (mkWorld (ListPage.mkState [goku; cell] false "" 2 5 true) []) 3 false
           (mkError "Cannot read properties of null (reading 'items')")).
  reflexivity.
Defined.

(** X11. [loadCharacters page true] is idempotent: run again against the
    same network, it leaves the state that the first run left. *)
Theorem reload_is_idempotent (net : network) (w : world ListPage.state) (page : Z) :
  view (snd (ListPage.loadCharacters page true net
               (snd (ListPage.loadCharacters page true net w))))
  = view (snd (ListPage.loadCharacters page true net w)).
Proof.
  destruct (loadCharacters_view net w page true) as (data & Hdata & Hfirst).
  destruct (loadCharacters_view net (snd (ListPage.loadCharacters page true net w))
              page true) as (data' & Hdata' & Hsecond).
  rewrite (getAllCharacters_answer net _ w) in Hdata'.
  rewrite Hdata in Hdata'. injection Hdata' as <-.
  rewrite Hsecond, Hfirst. cbn [view].
  now destruct (items_or_self data).
Qed.



(** X13. After a search, whatever it found, the Load More button is not
    rendered and [loadMore] does nothing, against any network. *)
Theorem search_stops_paging
    {E : Engine} (net net' : network) (w : world ListPage.state) (name race : string) :
  let w' := snd (ListPage.searchCharacters name race net w) in
  ListTemplate.load_more_button (view w') = false
  /\ ListPage.loadMore net' w' = (Return tt, w').
Proof.
  destruct (page_search_run net w name race) as (items & meta & _ & Hrun).
  rewrite Hrun. cbn [snd]. split.
  - unfold ListTemplate.load_more_button. cbn. apply andb_false_r.
  - reflexivity.
Qed.

(** X14. Whenever the Load More button is rendered, pressing it sends the
    request for the page after [currentPage]: the guard of [loadMore] never
    stops a button that is shown. *)
Theorem load_more_button_loads
    (net : network) (w : world ListPage.state) :
  ListTemplate.load_more_button (view w) = true ->
  ListPage.loadMore net w
  = ListPage.loadCharacters (ListPage.currentPage (view w) + 1) false net w
  /\ requests (snd (ListPage.loadMore net w))
     = requests w ++ [GET_characters (ListPage.currentPage (view w) + 1) 12]
  /\ ListPage.characters (view w) <> [].
Proof.
  unfold ListTemplate.load_more_button, ListTemplate.grid.
  rewrite !andb_true_iff, negb_true_iff, Z.ltb_lt.
  intros (Hgrid & Hmore & Hloading).
  assert (Hrun : ListPage.loadMore net w
                 = ListPage.loadCharacters
                     (ListPage.currentPage (view w) + 1) false net w).
  { unfold ListPage.loadMore, bind, get. cbv beta iota.
    now rewrite Hloading, Hmore. }
  split; [ exact Hrun | ]. split.
  - rewrite Hrun.
    destruct (loadCharacters_view net w (ListPage.currentPage (view w) + 1) false)
      as (data & _ & Hview).
    now rewrite Hview.
  - intros Hnil. rewrite Hnil in Hgrid. cbn in Hgrid. lia.
Qed.

Lemma load_more_button_loads_witness :
  requests (snd (ListPage.loadMore offline
                   (mkWorld (ListPage.mkState [goku] false "" 1 3 true) [])))
  = [] ++ [GET_characters (1 + 1) 12].
Proof.
  apply (load_more_button_loads offline
           (mkWorld (ListPage.mkState [goku] false "" 1 3 true) [])).
  reflexivity.
Defined.

(** *** The list page over any sequence of actions *)

Lemma load_keeps_invariant (net : network) (w : world ListPage.state)
      (page : Z) (reset : bool) :
  list_page_invariant w ->
  list_page_invariant (snd (ListPage.loadCharacters page reset net w)).
Proof.
  intros (_ & Hpages & _ & Hmore & Hlog).
  destruct (loadCharacters_view net w page reset) as (data & _ & Hview).
  rewrite Hview. unfold list_page_invariant. cbn [view requests].
  assert (Hlog' : Forall
                    (fun rq => (exists p, rq = GET_characters p 12)
                               \/ rq = GET_characters 1 50)
                    (requests w ++ [GET_characters page 12])).
  { apply Forall_app. split; [ exact Hlog | ].
    constructor; [ left; now exists page | constructor ]. }
  destruct (items_or_self data) as [items | e] eqn:Hitems; cbn.
  - split; [ reflexivity | ].
    split; [ apply totalPages_or_1_nonzero | ].
    split; [ now left | ].
    split; [ | exact Hlog' ].
    intros Hlt. left. now apply Z.ltb_lt.
  - destruct (items_or_self_raises data e Hitems) as [_ Hmsg].
    split; [ reflexivity | ].
    split; [ exact Hpages | ].
    split; [ now right | ].
    split; [ exact Hmore | exact Hlog' ].
Qed.

Lemma search_keeps_invariant {E : Engine} (net : network) (w : world ListPage.state)
      (name race : string) :
  list_page_invariant w ->
  list_page_invariant (snd (ListPage.searchCharacters name race net w)).
Proof.
  intros (_ & Hpages & _ & _ & Hlog).
  destruct (page_search_run net w name race) as (items & meta & _ & Hrun).
  rewrite Hrun. unfold list_page_invariant. cbn.
  split; [ reflexivity | ].
  split; [ exact Hpages | ].
  split; [ now left | ].
  split; [ discriminate | ].
  apply Forall_app. split; [ exact Hlog | ].
  constructor; [ now right | constructor ].
Qed.

Lemma perform_keeps_invariant {E : Engine} (a : action) (net : network) (w : world ListPage.state) :
  list_page_invariant w -> list_page_invariant (snd (perform a net w)).
Proof.
  intros Hinv. destruct a as [ | | | term race | key term race]; cbn [perform].
  - now apply load_keeps_invariant.
  - now apply load_keeps_invariant.
  - unfold ListPage.loadMore, bind, get. cbv beta iota.
    destruct (negb (ListPage.loading (view w)) && ListPage.hasMore (view w)).
    + now apply load_keeps_invariant.
    + exact Hinv.
  - now apply search_keeps_invariant.
  - unfold SearchForm.handleKeyPress.
    destruct (String.eqb key "Enter"); [ | exact Hinv ].
    now apply search_keeps_invariant.
Qed.

(** X15. In every state that the list page reaches through completed
    actions (mount, retry, load more, search by button or by key), against
    any networks: [loading] is false; [totalPages] is not 0; [error] is empty
    or 'An unexpected error occurred. Please try again.'; the page has only
    ever asked for characters, by pages of 12 or as page 1 of 50; when the
    Load More button is rendered, [currentPage] is below [totalPages]; and the
    page renders the error banner, the grid or the empty message. *)
Theorem list_page_invariants {E : Engine} (w : world ListPage.state) :
  reachable w ->
  ListPage.loading (view w) = false
  /\ ListPage.totalPages (view w) <> 0
  /\ (ListPage.error (view w) = ""%string \/ ListPage.error (view w) = unexpected)
  /\ Forall (fun rq => (exists page, rq = GET_characters page 12)
                       \/ rq = GET_characters 1 50)
            (requests w)
  /\ (ListTemplate.load_more_button (view w) = true ->
      ListPage.currentPage (view w) < ListPage.totalPages (view w))
  /\ (ListTemplate.error_banner (view w)
      || ListTemplate.grid (view w)
      || ListTemplate.empty_message (view w)) = true.
Proof.
  intros Hreach.
  assert (Hinv : list_page_invariant w).
  { induction Hreach as [ | w a net _ IH].
    - unfold list_page_invariant. cbn.
      repeat split; try discriminate; auto.
    - now apply perform_keeps_invariant. }
  destruct Hinv as (Hloading & Hpages & Herror & Hmore & Hlog).
  repeat (split; [ assumption | ]).
  split.
  - unfold ListTemplate.load_more_button, ListTemplate.grid.
    rewrite !andb_true_iff, Z.ltb_lt. intros (Hgrid & Hhas & _).
    destruct (Hmore Hhas) as [Hlt | Hnil]; [ exact Hlt | ].
    rewrite Hnil in Hgrid. cbn in Hgrid. lia.
  - unfold ListTemplate.error_banner, ListTemplate.empty_message.
    rewrite Hloading.
    destruct (truthy (ListPage.error (view w))); [ reflexivity | ].
    now destruct (ListTemplate.grid (view w)).
Qed.

Lemma list_page_invariants_witness :
  ListPage.loading
    (view (snd (perform LoadMore null_document
                  (snd (perform Mount one_page (fresh ListPage.initial)))))) = false.
Proof.
  apply (list_page_invariants
           (snd (perform LoadMore null_document
                   (snd (perform Mount one_page (fresh ListPage.initial)))))).
  apply reachable_step. apply reachable_step. apply reachable_fresh.
Defined.

(** *** The search form *)

(** X16. On the list page, submitting the form with an empty term and the
    race 'All' displays what listing page 1 by 50 returns, unfiltered, unless
    the remote answers with the document [null]; 'All' always stands for no
    category; and a key other than Enter sends nothing and changes nothing,
    while Enter is a submission. *)
Theorem form_shows_all
    {E : Engine} (net : network) (w : world ListPage.state) (key term race : string) :
  (~ network_success (characters_endpoint net 1 50) PNull ->
   ListPage.characters (view (snd (perform (SubmitSearch "" "All") net w)))
   = returned_items (fst (DragonBallAPI.getAllCharacters 1 50 net w)))
  /\ perform (SubmitSearch term "All") net w = ListPage.searchCharacters term "" net w
  /\ (key <> "Enter"%string -> perform (KeyPress key term race) net w = (Return tt, w))
  /\ perform (KeyPress "Enter" term race) net w = perform (SubmitSearch term race) net w.
Proof.
  split; [ | split; [ reflexivity | split; [ | reflexivity ] ] ].
  - intros Hnot.
    change (perform (SubmitSearch "" "All") net w)
      with (ListPage.searchCharacters "" "" net w).
    destruct (page_search_run net w "" "") as (items & meta & Hservice & Hrun).
    rewrite Hrun. cbn [snd view ListPage.characters].
    destruct (failure_or_success (characters_endpoint net 1 50)) as [Hf | [d Hs]].
    + rewrite (searchCharacters_failure net (begun w) "" "" 1 50 Hf) in Hservice.
      rewrite (getAllCharacters_failure net w 1 50 Hf).
      injection Hservice as <- _. reflexivity.
    + rewrite (searchCharacters_success net (begun w) "" "" 1 50 d Hs) in Hservice.
      rewrite (getAllCharacters_success net w 1 50 d Hs).
      destruct d as [ | elems | items' meta']; [ contradiction | | ];
        cbn in Hservice; injection Hservice as <- _; reflexivity.
  - intros Hkey. cbn [perform]. unfold SearchForm.handleKeyPress.
    destruct (String.eqb_spec key "Enter"); [ contradiction | reflexivity ].
Qed.

Lemma form_shows_all_witness :
  ListPage.characters
    (view (snd (perform (SubmitSearch "" "All") all_404 (fresh ListPage.initial))))
  = mockCharacters
  /\ perform (KeyPress "a" "go" "Saiyan") offline (fresh ListPage.initial)
     = (Return tt, fresh ListPage.initial).
Proof.
  destruct (form_shows_all all_404 (fresh ListPage.initial) "a" "go" "Saiyan")
    as (Hall & _).
  destruct (form_shows_all offline (fresh ListPage.initial) "a" "go" "Saiyan")
    as (_ & _ & Hkey & _).
  split.
  - rewrite Hall; [ reflexivity | ].
    intros Hs. inversion Hs as [r d Hok Hjson Heq]. subst. discriminate.
  - apply Hkey. discriminate.
Defined.

(** *** From a card to the detail page *)

(** X17. The link of a card leads to the record of the card.  The
    identifier written into the link parses back to the identifier of the
    record (for identifiers within the safe integers); and for every bundled
    record, when the network call fails, mounting the detail page with the
    segment of its link ends showing that very record. *)
Theorem card_link_opens_record
    {E : Engine} (net : network) (w : world DetailPage.state) (c : Character.t) :
  (Z.abs (Character.id c) < 2 ^ 53 ->
   parseInt (IdStr (CharacterCard.id_segment c)) = Some (Character.id c)
   /\ parseInt (IdStr (CharacterCard.id_segment c)) = parseInt (IdNum (Character.id c)))
  /\ (In c mockCharacters ->
      network_failure (character_endpoint net (IdStr (CharacterCard.id_segment c))) ->
      exists w',
        DetailPage.onMount (CharacterCard.id_segment c) net w = (Return tt, w')
        /\ DetailTemplate.render (view w') = DetailTemplate.Details c
        /\ requests w'
           = requests w ++ [GET_character (IdStr (CharacterCard.id_segment c))]).
Proof.
  split.
  - intros Hsafe. unfold CharacterCard.id_segment. cbn [parseInt].
    assert (Hbound : 2 ^ 53 < 10 ^ 21) by reflexivity.
    rewrite number_to_string_decimal by lia.
    clear Hbound Hsafe. rewrite parseInt_string_of_Z. split; reflexivity.
  - intros Hin Hf.
    assert (Hfind : DragonBallAPI.find_mock (IdStr (CharacterCard.id_segment c)) = Some c).
    { apply find_mock_found; trivial.
      unfold CharacterCard.id_segment. cbn [parseInt]. apply parseInt_string_of_Z. }
    assert (Hmount : DetailPage.onMount (CharacterCard.id_segment c) net w
                     = DetailPage.loadCharacter (IdStr (CharacterCard.id_segment c)) net w).
    { unfold DetailPage.onMount. cbn in Hin.
      destruct Hin as [<- | [<- | [<- | [<- | [<- | [<- | []]]]]]]; reflexivity. }
    rewrite Hmount.
    set (w0 := mkWorld (DetailPage.set_error "" (DetailPage.set_loading true (view w)))
                       (requests w)).
    pose proof (getCharacterById_failure net w0 _ Hf) as Hrun.
    rewrite Hfind in Hrun.
    rewrite (loadCharacter_run net w _ _ Hrun).
    eexists. split; [ reflexivity | ]. split; reflexivity.
Qed.

Lemma card_link_opens_record_witness :
  parseInt (IdStr (CharacterCard.id_segment frieza)) = Some 5
  /\ exists w',
       DetailPage.onMount (CharacterCard.id_segment frieza) offline
         (fresh DetailPage.initial) = (Return tt, w')
       /\ DetailTemplate.render (view w') = DetailTemplate.Details frieza
       /\ requests w' = [] ++ [GET_character (IdStr (CharacterCard.id_segment frieza))].
Proof.
  destruct (card_link_opens_record offline (fresh DetailPage.initial) frieza)
    as [Hparse Hopen].
  split.
  - apply Hparse. cbn. lia.
  - apply Hopen.
    + cbn. tauto.
    + apply transport_failure.
Defined.
